(** * A shallow embedding of the curses menu and split-pane diff viewer

    The development follows [cursemenu.py] ([showmenu], [drawsplitpane]) and
    [diffwin.py] ([DiffWindow.showdiff]).  Python integers are [Z], Python
    strings are lists of code points, and the curses window is modelled by the
    trace of calls the code makes on it ([erase], [insstr], [move], ...) with
    the values it reads from it ([getmaxyx], [getch]) taken as inputs. *)

From Stdlib Require Import ZArith NArith List Bool Lia String Ascii FinFun.
Import ListNotations.
Local Open Scope Z_scope.

(** ** Python values and built-ins used by the two modules *)

Module Py.

(** A [str] is a sequence of Unicode code points. *)
Definition str := list N.

Definition of_string (s : string) : str :=
  map N_of_ascii (list_ascii_of_string s).

Definition len {A : Type} (l : list A) : Z := Z.of_nat (List.length l).

(** [c.isspace()] for one code point, as [str.strip] uses it. *)
Definition isspace (c : N) : bool :=
  ((9 <=? c) && (c <=? 13) || (28 <=? c) && (c <=? 32)
   || (c =? 133) || (c =? 160) || (c =? 5760)
   || (8192 <=? c) && (c <=? 8202)
   || (c =? 8232) || (c =? 8233) || (c =? 8239) || (c =? 8287)
   || (c =? 12288))%N.

Fixpoint lstrip (s : str) : str :=
  match s with
  | c :: t => if isspace c then lstrip t else s
  | [] => []
  end.

Definition rstrip (s : str) : str := rev (lstrip (rev s)).

Definition strip (s : str) : str := rstrip (lstrip s).

Fixpoint str_eqb (a b : str) : bool :=
  match a, b with
  | [], [] => true
  | x :: a', y :: b' => N.eqb x y && str_eqb a' b'
  | _, _ => false
  end.

(** How a slice bound is brought into [0 .. n]: a negative bound counts
    from the end. *)
Definition slice_bound (n i : Z) : Z :=
  if i <? 0 then Z.max (i + n) 0 else Z.min i n.

(** [l[a:b]] *)
Definition slice {A : Type} (l : list A) (a b : Z) : list A :=
  let n := len l in
  let a' := slice_bound n a in
  let b' := slice_bound n b in
  firstn (Z.to_nat (b' - a')) (skipn (Z.to_nat a') l).

(** [l[i]]; [None] stands for the [IndexError] Python raises. *)
Definition index {A : Type} (l : list A) (i : Z) : option A :=
  let n := len l in
  let j := if i <? 0 then i + n else i in
  if (0 <=? j) && (j <? n) then nth_error l (Z.to_nat j) else None.

(** [l[i]] at a place where the code has already tested [0 <= i < len(l)]. *)
Definition item (l : list str) (i : Z) : str := nth (Z.to_nat i) l [].

(** [range(a, b)] *)
Definition range (a b : Z) : list Z :=
  map (fun k => a + Z.of_nat k) (seq 0 (Z.to_nat (b - a))).

End Py.

(** ** The curses window, as far as the code uses it *)

Module Curses.

(** An attribute is a colour pair, possibly or-ed with [A_BOLD]. *)
Record attr := { pair : Z; bold : bool }.

Definition color_pair (n : Z) : attr := {| pair := n; bold := false |}.
Definition with_bold (a : attr) : attr := {| pair := pair a; bold := true |}.

(** The calls made on the window, in order. *)
Inductive call :=
| erase
| insstr (y x : Z) (s : Py.str) (a : attr)
| move (y x : Z)
| curs_set (v : Z)
| refresh.

(** The key codes of ncurses. *)
Definition KEY_DOWN := 258.
Definition KEY_UP := 259.
Definition KEY_LEFT := 260.
Definition KEY_RIGHT := 261.
Definition KEY_HOME := 262.
Definition KEY_NPAGE := 338.
Definition KEY_PPAGE := 339.
Definition KEY_ENTER := 343.
Definition KEY_END := 360.

(** The calls that write on screen row [i]. *)
Definition on_row (i : Z) (c : call) : bool :=
  match c with
  | insstr y _ _ _ => y =? i
  | _ => false
  end.

Definition row_calls (i : Z) (cs : list call) : list call :=
  filter (on_row i) cs.

End Curses.

Import Curses.

(** ** [cursemenu.drawsplitpane] *)

Module SplitPane.

(** A pane offset [[row, col]]. *)
Definition pos := (Z * Z)%type.

Definition infocolor : attr := with_bold (color_pair 2).
Definition matchcolor : attr := with_bold (color_pair 1).
Definition stdcolor : attr := color_pair 0.

Definition END : Py.str := Py.of_string "END".

(** The labels drawn on row 0, with [rstart] and [lstop]. *)
Definition layout (width lcol paneshmt halfgap : Z) : list call * Z * Z :=
  let middle := width / 2 + paneshmt in
  if negb (paneshmt =? 0) then
    if middle >=? width - halfgap then
      ([insstr 0 1 (Py.of_string "left") infocolor], width, width + lcol)
    else if middle <=? halfgap then
      ([insstr 0 (width - 6) (Py.of_string "right") infocolor], 0, lcol)
    else
      ([insstr 0 1 (Py.of_string "left") infocolor;
        insstr 0 (width - 6) (Py.of_string "right") infocolor],
       middle + halfgap, middle - halfgap + lcol)
  else
    ([insstr 0 1 (Py.of_string "left") infocolor;
      insstr 0 (width - 11) (Py.of_string "right") infocolor],
     middle + halfgap, middle - halfgap + lcol).

Section Rows.
Variables (width : Z) (lhs : list Py.str) (lpos : pos)
          (rhs : list Py.str) (rpos : pos) (highlight : bool)
          (rstart lstop rstop : Z).

(** The colour of row [i]; [color] is the value the variable holds when
    the iteration starts. *)
Definition row_color (i : Z) (color : attr) : attr :=
  if highlight then
    if (i + fst lpos >=? 0) && (i + fst rpos >=? 0)
       && (i + fst lpos <? Py.len lhs) && (i + fst rpos <? Py.len rhs)
       && Py.str_eqb (Py.strip (Py.item lhs (fst lpos + i)))
                     (Py.strip (Py.item rhs (fst rpos + i)))
    then matchcolor
    else stdcolor
  else color.

Definition draw_lhs (i : Z) (color : attr) : list call :=
  if negb (lstop =? snd lpos) then
    if (i + fst lpos >=? 0) && (i + fst lpos <? Py.len lhs) then
      [insstr i 0 (Py.slice (Py.item lhs (fst lpos + i)) (snd lpos) lstop)
              color]
    else if i + fst lpos =? Py.len lhs then [insstr i 1 END infocolor]
    else []
  else [].

Definition draw_rhs (i : Z) (color : attr) : list call :=
  if negb (rstop =? snd rpos) then
    if (i + fst rpos >=? 0) && (i + fst rpos <? Py.len rhs) then
      [insstr i rstart
              (Py.slice (Py.item rhs (fst rpos + i)) (snd rpos) rstop)
              color]
    else if i + fst rpos =? Py.len rhs then
      [insstr i (width - 4) END infocolor]
    else []
  else [].

(** The body of [for i in range(1, height)], over the remaining rows. *)
Fixpoint draw_rows (rows : list Z) (color : attr) : list call :=
  match rows with
  | [] => []
  | i :: rest =>
      let color' := row_color i color in
      draw_lhs i color' ++ draw_rhs i color' ++ draw_rows rest color'
  end.
End Rows.

(** [drawsplitpane(scr, lhs, lpos, rhs, rpos, highlight, paneshmt, halfgap)]
    on a window whose [getmaxyx()] is [(height, width)]: the calls made and
    the value returned. *)
Definition drawsplitpane (height width : Z)
    (lhs : list Py.str) (lpos : pos) (rhs : list Py.str) (rpos : pos)
    (highlight : bool) (paneshmt halfgap : Z) : list call * (Z * Z) :=
  let '(labels, rstart, lstop) := layout width (snd lpos) paneshmt halfgap in
  let rstop := width - rstart + snd rpos in
  ([erase] ++ labels
     ++ draw_rows width lhs lpos rhs rpos highlight rstart lstop rstop
          (Py.range 1 height) stdcolor
     ++ [refresh],
   (height, width)).

(** *** The row rule in the words of the specification

    [shown], [landing], [pane_shows], [put], [same_after_trim] and
    [row_style] do not come from the code: they state, per pane and per
    screen row, what the specification says is shown, and are compared with
    [drawsplitpane] below. *)

(** What a pane shows on one screen row. *)
Inductive shown :=
| Blank
| Text (s : Py.str)
| EndMarker.

(** The buffer line that lands on screen row [i], if one does. *)
Definition landing (buf : list Py.str) (off : pos) (i : Z) : option Py.str :=
  if (0 <=? fst off + i) && (fst off + i <? Py.len buf)
  then Some (Py.item buf (fst off + i)) else None.

(** A pane whose stop column is its own column offset is not drawn;
    otherwise row [i] shows the line at index [row + i] cut to the columns
    [col .. stop], the marker one past the last line, and nothing
    elsewhere. *)
Definition pane_shows (buf : list Py.str) (off : pos) (stop : Z) (i : Z)
  : shown :=
  if stop =? snd off then Blank
  else match landing buf off i with
       | Some line => Text (Py.slice line (snd off) stop)
       | None => if fst off + i =? Py.len buf then EndMarker else Blank
       end.

(** The window calls that put a [shown] on row [i]: text starts at column
    [x], the marker at column [xend]. *)
Definition put (i x xend : Z) (style : attr) (s : shown) : list call :=
  match s with
  | Blank => []
  | Text t => [insstr i x t style]
  | EndMarker => [insstr i xend END infocolor]
  end.

Definition same_after_trim (a b : option Py.str) : bool :=
  match a, b with
  | Some x, Some y => Py.str_eqb (Py.strip x) (Py.strip y)
  | _, _ => false
  end.

(** The style of the text on row [i]. *)
Definition row_style (highlight : bool) (lhs : list Py.str) (lpos : pos)
    (rhs : list Py.str) (rpos : pos) (i : Z) : attr :=
  if highlight && same_after_trim (landing lhs lpos i) (landing rhs rpos i)
  then matchcolor else stdcolor.

(** The columns [layout] and [drawsplitpane] compute. *)
Definition rstart_of (width lcol paneshmt halfgap : Z) : Z :=
  snd (fst (layout width lcol paneshmt halfgap)).
Definition lstop_of (width lcol paneshmt halfgap : Z) : Z :=
  snd (layout width lcol paneshmt halfgap).
Definition rstop_of (width lcol rcol paneshmt halfgap : Z) : Z :=
  width - rstart_of width lcol paneshmt halfgap + rcol.

End SplitPane.

(** ** [cursemenu.showmenu] *)

Module Menu.

Definition titlecolor : attr := with_bold (color_pair 2).
Definition itemcolor : attr := color_pair 1.
Definition activecolor : attr := with_bold (color_pair 1).
Definition errorcolor : attr := with_bold (color_pair 3).

(** The [err] argument is [None], a string or a list of strings. *)
Inductive errarg :=
| ErrStr (s : Py.str)
| ErrList (l : list Py.str).

(** [if err:] *)
Definition truthy (err : option errarg) : bool :=
  match err with
  | None | Some (ErrStr []) | Some (ErrList []) => false
  | _ => true
  end.

Definition maxlen (lines : list Py.str) (maxwidth : Z) : Z :=
  fold_left (fun m line => Z.max (Py.len line) m) lines maxwidth.

Definition maxwidth (title : Py.str) (body : list (list Py.str))
    (err : option errarg) (choices : list Py.str) : Z :=
  let m := Py.len title in
  let m := fold_left (fun m section => maxlen section m) body m in
  let m := match err with
           | Some (ErrStr s) => Z.max (Py.len s) m
           | Some (ErrList l) => maxlen l m
           | None => m
           end in
  maxlen choices m.

Definition errorlen (err : option errarg) : Z :=
  match err with
  | Some (ErrList l) => Py.len l
  | _ => 1
  end.

(** The variables the [while True] loop changes. *)
Record state := mkstate {
  err : option errarg;
  errorcounter : option Z;
  topline : Z;
  hpos : Z
}.

(** What [showmenu] hands back: [return None, None], the bare [return] of
    an info box, or [return topline, hpos]. *)
Inductive retval :=
| RetNoneNone
| RetNone
| RetPair (topline hpos : Z).

Inductive outcome :=
| Continue (s : state)
| Return (v : retval).

(** How a call ends: with a value, with the [IndexError] of
    [choices[hpos]], or waiting for a key that the input does not hold. *)
Inductive result :=
| Returned (v : retval)
| RaisedIndexError
| Blocked (s : state).

(** What one pass of the loop reads from the window: [getmaxyx()] and
    [getch()]. *)
Record input := mkinput { in_height : Z; in_width : Z; in_key : Z }.

Section ShowMenu.
Variables (title : Py.str) (body : list (list Py.str))
          (err0 : option errarg) (choices : list Py.str)
          (infobox : bool) (curs : Z).

(** When the counter has hit zero the error disappears. *)
Definition expire (s : state) : state :=
  if truthy (err s)
     && match errorcounter s with Some c => c =? 0 | None => false end
  then
    let t := topline s - (errorlen err0 + 1) in
    mkstate None (errorcounter s) (if t <? 0 then 0 else t) (hpos s)
  else s.

Definition lshift_of (width : Z) : Z :=
  let m := maxwidth title body err0 choices in
  if m <? width then (width - m) / 2 else 0.

Fixpoint draw_section (lshift : Z) (section : list Py.str) (linenum : Z)
  : list call * Z :=
  match section with
  | [] => ([], linenum)
  | line :: rest =>
      let linenum := linenum + 1 in
      let '(cs, ln) := draw_section lshift rest linenum in
      (insstr linenum (4 + lshift) line itemcolor :: cs, ln)
  end.

Fixpoint draw_body (lshift : Z) (sections : list (list Py.str))
    (linenum : Z) : list call * Z :=
  match sections with
  | [] => ([], linenum)
  | section :: rest =>
      let '(cs, ln) := draw_section lshift section linenum in
      let '(cs', ln') := draw_body lshift rest (ln + 1) in
      (cs ++ cs', ln')
  end.

(** [for e in err: if e == '': continue ...] *)
Fixpoint draw_errlist (lshift : Z) (es : list Py.str) (linenum : Z)
  : list call * Z :=
  match es with
  | [] => ([], linenum)
  | e :: rest =>
      match e with
      | [] => draw_errlist lshift rest linenum
      | _ =>
          let '(cs, ln) := draw_errlist lshift rest (linenum + 1) in
          (insstr linenum (4 + lshift) e errorcolor :: cs, ln)
      end
  end.

(** The [if err:] block: the calls, [linenum], [errorcounter] and
    [topline] after it. *)
Definition draw_err (height lshift linenum : Z) (s : state)
  : list call * Z * state :=
  if truthy (err s) then
    let '(cs, ln) :=
      match err s with
      | Some (ErrList l) =>
          let '(cs, ln) := draw_errlist lshift l linenum in (cs, ln - 1)
      | Some (ErrStr e) =>
          ([insstr linenum (4 + lshift) e errorcolor], linenum)
      | None => ([], linenum)
      end in
    let ln := ln + 2 in
    match errorcounter s with
    | None =>
        let t :=
          if height - ln <? Py.len choices then
            let t := topline s + (errorlen err0 + 1) in
            if t >? hpos s then hpos s else t
          else topline s in
        (cs, ln, mkstate (err s) (Some 5) t (hpos s))
    | Some c =>
        (cs, ln, mkstate (err s) (Some (c - 1)) (topline s) (hpos s))
    end
  else ([], linenum, s).

(** [for i, line in enumerate(choices)], from index [i] on. *)
Fixpoint draw_choices (height lshift topline hpos : Z) (i : Z)
    (rest : list Py.str) (linenum : Z) : list call :=
  match rest with
  | [] => []
  | line :: rest' =>
      if linenum =? height then []
      else if i >=? topline then
        let color := if i =? hpos then activecolor else itemcolor in
        insstr linenum (4 + lshift) line color
          :: draw_choices height lshift topline hpos (i + 1) rest'
               (linenum + 1)
      else
        draw_choices height lshift topline hpos (i + 1) rest' linenum
  end.

(** [if curs != 0:]; [None] is the [IndexError] of [choices[hpos]]. *)
Definition draw_cursor (width lshift actualtop : Z) (s : state)
  : option (list call) :=
  if negb (curs =? 0) then
    match Py.index choices (hpos s) with
    | None => None
    | Some choice =>
        let cursorcol := 4 + lshift + Py.len choice in
        if cursorcol <? width then
          Some [move (actualtop + hpos s - topline s) cursorcol;
                curs_set curs]
        else Some []
    end
  else Some [].

(** One pass from the top of the loop to [scr.refresh()]: the calls made
    and, unless [choices[hpos]] raised, the state and [actualtop]. *)
Definition frame (height width : Z) (s : state)
  : list call * option (state * Z) :=
  let s := expire s in
  let lshift := lshift_of width in
  let '(cbody, linenum) := draw_body lshift body 1 in
  let linenum := linenum + 1 in
  let '(cerr, actualtop, s) := draw_err height lshift linenum s in
  let cchoices :=
    draw_choices height lshift (topline s) (hpos s) 0 choices actualtop in
  let drawn :=
    [erase; insstr 0 (0 + lshift) title titlecolor]
      ++ cbody ++ cerr ++ cchoices in
  match draw_cursor width lshift actualtop s with
  | None => (drawn, None)
  | Some ccursor => (drawn ++ ccursor ++ [refresh], Some (s, actualtop))
  end.

(** The [if]/[elif] chain on the key read. *)
Definition on_key (height actualtop ch : Z) (s : state) : outcome :=
  let n := Py.len choices in
  let upd t h := Continue (mkstate (err s) (errorcounter s) t h) in
  if (ch =? 27) || (ch =? 81) || (ch =? 113) then Return RetNoneNone
  else if infobox then Return RetNone
  else if ch =? KEY_HOME then upd 0 0
  else if ch =? KEY_END then
    if actualtop + n >? height
    then upd (n - height + actualtop) (n - 1)
    else Continue s
  else if ch =? KEY_UP then
    if hpos s >? 0 then
      let h := hpos s - 1 in
      if actualtop + h - topline s <? actualtop
      then upd (topline s - 1) h
      else upd (topline s) h
    else Continue s
  else if ch =? KEY_DOWN then
    if hpos s <? n - 1 then
      let h := hpos s + 1 in
      if actualtop + h - topline s =? height
      then upd (topline s + 1) h
      else upd (topline s) h
    else Continue s
  else if (ch =? KEY_PPAGE) && (hpos s >? 0) then
    let h := hpos s - 4 in
    let t := if h - topline s <? 0 then h else topline s in
    if h <? 0 then upd 0 0 else upd t h
  else if ch =? KEY_NPAGE then
    let h := hpos s + 4 in
    let h := if h >=? n - 1 then n - 1 else h in
    let t := topline s in
    if actualtop + h - t >=? height
    then upd (t + (actualtop + h - t - height + 1)) h
    else upd t h
  else if (ch =? KEY_ENTER) || (ch =? 10) || (ch =? 13) then
    Return (RetPair (topline s) (hpos s))
  else Continue s.

(** One pass of the loop. *)
Definition pass (i : input) (s : state) : list call * option outcome :=
  match frame (in_height i) (in_width i) s with
  | (cs, None) => (cs, None)
  | (cs, Some (s', actualtop)) =>
      (cs ++ [curs_set 0],
       Some (on_key (in_height i) actualtop (in_key i) s'))
  end.

(** [while True:] over the keys the input holds. *)
Fixpoint loop (inputs : list input) (s : state) : list call * result :=
  match inputs with
  | [] => ([], Blocked s)
  | i :: rest =>
      match pass i s with
      | (cs, None) => (cs, RaisedIndexError)
      | (cs, Some (Return v)) => (cs, Returned v)
      | (cs, Some (Continue s')) =>
          let '(cs', r) := loop rest s' in (cs ++ cs', r)
      end
  end.

(** [showmenu(scr, title, body, err, choices, infobox, curs, topline,
    hpos)] *)
Definition showmenu (topline hpos : Z) (inputs : list input)
  : list call * result :=
  let hpos := if hpos <? topline then topline else hpos in
  loop inputs (mkstate err0 None topline hpos).

(** The state the loop is in after the given passes, when none of them
    returned or raised. *)
Fixpoint after (inputs : list input) (s : state) : option state :=
  match inputs with
  | [] => Some s
  | i :: rest =>
      match pass i s with
      | (_, Some (Continue s')) => after rest s'
      | _ => None
      end
  end.
End ShowMenu.

(** The row of the first choice when no error is shown: the title row,
    the blank row, the body sections and the rows that separate them. *)
Definition choices_top (body : list (list Py.str)) : Z :=
  snd (draw_body 0 body 1) + 1.

(** The ten choices "0" .. "9" of the scenarios. *)
Definition ten_choices : list Py.str :=
  map (fun k => [(48 + N.of_nat k)%N]) (seq 0 10).

End Menu.

(** ** [diffwin.DiffWindow.showdiff] *)

Module Diff.

Import SplitPane.

(** The variables the [while] loop changes. *)
Record state := mkstate {
  lpos : pos;
  rpos : pos;
  lastheight : Z;
  lastwidth : Z;
  singlescroll : bool;
  leftscroll : bool;
  highlight : bool;
  paneshmt : Z
}.

Definition with_pos (s : state) (lp rp : pos) : state :=
  mkstate lp rp (lastheight s) (lastwidth s) (singlescroll s)
          (leftscroll s) (highlight s) (paneshmt s).

Definition with_size (s : state) (height width : Z) : state :=
  mkstate (lpos s) (rpos s) height width (singlescroll s)
          (leftscroll s) (highlight s) (paneshmt s).

Definition with_paneshmt (s : state) (shmt : Z) : state :=
  mkstate (lpos s) (rpos s) (lastheight s) (lastwidth s) (singlescroll s)
          (leftscroll s) (highlight s) shmt.

Definition with_singlescroll (s : state) (b : bool) : state :=
  mkstate (lpos s) (rpos s) (lastheight s) (lastwidth s) b
          (leftscroll s) (highlight s) (paneshmt s).

(** [scroll('left')] and [scroll('right')] of the lambda [scroll]. *)
Definition scroll_left (s : state) : bool :=
  negb (singlescroll s) || leftscroll s.
Definition scroll_right (s : state) : bool :=
  negb (singlescroll s) || negb (leftscroll s).

(** [re.sub('\t', '  ', line)] *)
Definition expand_tabs (line : Py.str) : Py.str :=
  flat_map (fun c => if (c =? 9)%N then [32%N; 32%N] else [c]) line.

(** Empty lines are removed, trailing whitespace is cut, tabs become two
    spaces. *)
Definition preprocess (buf : list Py.str) : list Py.str :=
  map (fun line => expand_tabs (Py.rstrip line))
      (filter (fun line => negb (Py.str_eqb (Py.strip line) [])) buf).

Definition colwidth (buf : list Py.str) : Z :=
  fold_left (fun w row => Z.max (Py.len row) w) buf 0.

Definition is_quit (ch : Z) : bool := (ch =? 27) || (ch =? 81) || (ch =? 113).

(** What one pass of the loop reads from the window: [getmaxyx()], when it
    repaints, and the next [getch()]. *)
Record input := mkinput { in_height : Z; in_width : Z; in_key : Z }.

(** The loop ends when a quit key is read; [Blocked] is a loop whose
    input holds no further key. *)
Inductive result :=
| Exited (s : state)
| Blocked (ch : Z) (s : state).

Section ShowDiff.
Variables (lhs rhs : list Py.str) (lwidth rwidth : Z).

(** The [if]/[elif] chain on the key [ch]: the new state and [repaint]. *)
Definition on_key (ch : Z) (s : state) : state * bool :=
  let middle := lastwidth s / 2 + paneshmt s in
  let sl := scroll_left s in
  let sr := scroll_right s in
  let '(lrow, lcol) := lpos s in
  let '(rrow, rcol) := rpos s in
  let h := lastheight s in
  if ch =? 32 then
    (mkstate (lpos s) (rpos s) h (lastwidth s) (negb (singlescroll s))
             (leftscroll s) (highlight s) (paneshmt s), true)
  else if ch =? 9 then
    (mkstate (lpos s) (rpos s) h (lastwidth s) (singlescroll s)
             (negb (leftscroll s)) (highlight s) (paneshmt s), true)
  else if (ch =? 68) || (ch =? 72) || (ch =? 100) || (ch =? 104) then
    (mkstate (lpos s) (rpos s) h (lastwidth s) (singlescroll s)
             (leftscroll s) (negb (highlight s)) (paneshmt s), true)
  else if ch =? 43 then
    (if middle <? lastwidth s - 2
     then with_paneshmt s (paneshmt s + 1) else s, true)
  else if ch =? 45 then
    (if middle >? 2 then with_paneshmt s (paneshmt s - 1) else s, true)
  else if ch =? 61 then (with_paneshmt s 0, true)
  else if ch =? KEY_HOME then
    let lp := if sl then (-1, lcol) else lpos s in
    let rp := if sr then (-1, rcol) else rpos s in
    (with_pos s lp rp, true)
  else if ch =? KEY_END then
    let lp := if sl && (h <? Py.len lhs)
              then (Py.len lhs - h + 1, lcol) else lpos s in
    let rp := if sr && (h <? Py.len rhs)
              then (Py.len rhs - h + 1, rcol) else rpos s in
    (with_pos s lp rp, true)
  else if ch =? KEY_PPAGE then
    let lp := if sl then
                let r := lrow - (h - 4) in
                (if r <? 0 then -1 else r, lcol)
              else lpos s in
    let rp := if sr then
                let r := rrow - (h - 4) in
                (if r <? 0 then -1 else r, rcol)
              else rpos s in
    (with_pos s lp rp, true)
  else if ch =? KEY_NPAGE then
    let lp := if sl && (h <? Py.len lhs) then
                let r := lrow + (h - 4) in
                (if r >? Py.len lhs - h then Py.len lhs - h + 1 else r,
                 lcol)
              else lpos s in
    let rp := if sr && (h <? Py.len rhs) then
                let r := rrow + (h - 4) in
                (if r >? Py.len rhs - h then Py.len rhs - h + 1 else r,
                 rcol)
              else rpos s in
    (with_pos s lp rp, true)
  else if ch =? KEY_UP then
    let lp := if sl then (lrow - 1, lcol) else lpos s in
    let rp := if sr then (rrow - 1, rcol) else rpos s in
    (with_pos s lp rp, true)
  else if ch =? KEY_DOWN then
    let lp := if sl then (lrow + 1, lcol) else lpos s in
    let rp := if sr then (rrow + 1, rcol) else rpos s in
    (with_pos s lp rp, true)
  else if ch =? KEY_LEFT then
    let lp := if sl && (lcol >? 0) then (lrow, lcol - 1) else lpos s in
    let rp := if sr && (rcol >? 0) then (rrow, rcol - 1) else rpos s in
    (with_pos s lp rp, true)
  else if ch =? KEY_RIGHT then
    let lp := if sl && (middle >? 2) then
                if lwidth - lcol >? middle - 2
                then (lrow, lcol + 1) else lpos s
              else lpos s in
    let rp := if sr && (middle <? lastwidth s) then
                if rwidth - rcol >? lastwidth s - middle - 2
                then (rrow, rcol + 1) else rpos s
              else rpos s in
    (with_pos s lp rp, true)
  else (s, false).

(** One pass of the loop body up to [getch()]. *)
Definition pass (height width ch : Z) (s : state) : list call * state :=
  let '(s', repaint) := on_key ch s in
  if repaint then
    let '(cs, (h, w)) :=
      drawsplitpane height width lhs (lpos s') rhs (rpos s')
                    (highlight s') (paneshmt s') 2 in
    (cs, with_size s' h w)
  else ([], s').

(** [while ch not in [27, 81, 113]:] *)
Fixpoint loop (ch : Z) (inputs : list input) (s : state) {struct inputs}
  : list call * result :=
  if is_quit ch then ([], Exited s)
  else
    match inputs with
    | [] => ([], Blocked ch s)
    | i :: rest =>
        let '(cs, s') := pass (in_height i) (in_width i) ch s in
        let '(cs', r) := loop (in_key i) rest s' in
        (cs ++ cs', r)
    end.
End ShowDiff.

(** The state when the loop is entered; [(height, width)] is the first
    [getmaxyx()]. *)
Definition initial (height width : Z) : state :=
  mkstate (0, 0) (0, 0) height width false true true 0.

(** [showdiff(lhs, rhs)] on an initialised window. *)
Definition showdiff (lhs rhs : list Py.str) (height width : Z)
    (inputs : list input) : list call * result :=
  let lhs := preprocess lhs in
  let rhs := preprocess rhs in
  loop lhs rhs (colwidth lhs) (colwidth rhs) KEY_HOME inputs
       (initial height width).

(** The key codes the claims call directional. *)
Definition directional (ch : Z) : bool :=
  (ch =? KEY_HOME) || (ch =? KEY_END) || (ch =? KEY_PPAGE)
  || (ch =? KEY_NPAGE) || (ch =? KEY_UP) || (ch =? KEY_DOWN)
  || (ch =? KEY_LEFT) || (ch =? KEY_RIGHT).

End Diff.

(** ** More string built-ins, for [filemenu] and [testOutput.py] *)

Module PyStr.

(** [s.split(sep)] for a separator of one character. *)
Fixpoint split (sep : N) (s : Py.str) : list Py.str :=
  match s with
  | [] => [[]]
  | c :: t =>
      if (c =? sep)%N then [] :: split sep t
      else match split sep t with
           | w :: ws => (c :: w) :: ws
           | [] => [[c]]
           end
  end.

(** [sep.join(parts)] *)
Fixpoint join (sep : Py.str) (parts : list Py.str) : Py.str :=
  match parts with
  | [] => []
  | w :: ws =>
      match ws with
      | [] => w
      | _ => w ++ sep ++ join sep ws
      end
  end.

(** [s.startswith(sub)] *)
Fixpoint startswith (sub s : Py.str) : bool :=
  match sub, s with
  | [], _ => true
  | x :: sub', y :: s' => N.eqb x y && startswith sub' s'
  | _ :: _, [] => false
  end.

(** [s.find(sub)], counted from [i] at the head of [s]. *)
Fixpoint find_from (sub s : Py.str) (i : Z) : Z :=
  if startswith sub s then i
  else match s with
       | [] => -1
       | _ :: t => find_from sub t (i + 1)
       end.

Definition find (sub s : Py.str) : Z := find_from sub s 0.

(** [l[a:]] *)
Definition slice_from {A : Type} (l : list A) (a : Z) : list A :=
  Py.slice l a (Py.len l).

End PyStr.

(** ** The path steps of [cursemenu.filemenu] *)

Module FileMenu.

Definition slash : N := 47.

(** [path = '/'.join(path.split('/')[:-1])], the root becoming [''] and
    then ['/']. *)
Definition up (path : Py.str) : Py.str :=
  let p := PyStr.join [slash] (Py.slice (PyStr.split slash path) 0 (-1)) in
  if Py.str_eqb p [] then [slash] else p.

(** [names[ch] = names[ch][:-1]] and
    [testpath = path + names[ch] if path == '/' else path + '/' + names[ch]]
    for a chosen entry that ends in ['/']. *)
Definition testpath (path entry : Py.str) : Py.str :=
  let name := Py.slice entry 0 (-1) in
  if Py.str_eqb path [slash] then path ++ name else path ++ [slash] ++ name.

End FileMenu.

(** ** The terminal life cycle of [DiffWindow] and its [commands] box *)

Module Window.

(** The calls on the [curses] module and on [stdscr] that set the terminal
    up and restore it. *)
Inductive tcall :=
| t_initscr
| t_start_color
| t_init_pair (n fg bg : Z)
| t_noecho
| t_cbreak
| t_curs_set (v : Z)
| t_scrollok (b : bool)
| t_keypad (b : bool)
| t_nocbreak
| t_echo
| t_endwin.

Definition COLOR_BLACK := 0.
Definition COLOR_RED := 1.
Definition COLOR_GREEN := 2.
Definition COLOR_WHITE := 7.

(** The attributes of the object; [havescr = None] is an object on which
    the attribute has not been set, where reading it raises
    [AttributeError]. *)
Record obj := mkobj { unsafe : bool; havescr : option bool }.

(** [DiffWindow(unsafe)] *)
Definition new (unsafe : bool) : obj := mkobj unsafe None.

(** [initscr]: whether [self] is returned (the early [return] gives
    [None]), the calls made and the object after them. *)
Definition initscr (o : obj) : bool * list tcall * obj :=
  match havescr o with
  | Some true => (false, [], o)
  | _ =>
      (true,
       [t_initscr; t_start_color;
        t_init_pair 1 COLOR_GREEN COLOR_BLACK;
        t_init_pair 2 COLOR_WHITE COLOR_BLACK;
        t_init_pair 3 COLOR_RED COLOR_BLACK;
        t_noecho; t_cbreak; t_curs_set 0; t_scrollok true; t_keypad true],
       mkobj (unsafe o) (Some true))
  end.

(** [stopscr] *)
Definition stopscr (o : obj) : list tcall * obj :=
  match havescr o with
  | Some true =>
      ([t_nocbreak; t_keypad false; t_echo; t_endwin],
       mkobj (unsafe o) (Some false))
  | _ => ([], o)
  end.

(** [__del__]: [if self.havescr: self.stopscr()] under the same [try]. *)
Definition del (o : obj) : list tcall * obj :=
  match havescr o with
  | Some true => stopscr o
  | _ => ([], o)
  end.

(** The check [showdiff] and [mainmenu] start with; [None] is the
    [AssertionError]. *)
Definition confirm_usage (o : obj) : option (list tcall * obj) :=
  match havescr o with
  | Some true => Some ([], o)
  | Some false => Some (snd (fst (initscr o)), snd (initscr o))
  | None =>
      if unsafe o then Some (snd (fst (initscr o)), snd (initscr o))
      else None
  end.

(** Whether the object holds the terminal: [havescr] is set and true. *)
Definition active (o : obj) : bool :=
  match havescr o with
  | Some true => true
  | _ => false
  end.

(** The methods a caller can invoke on the object, by hand or through
    [with]. *)
Inductive op :=
| Enter
| Exit
| Initscr
| Stopscr
| Del.

Definition step (p : op) (o : obj) : list tcall * obj :=
  match p with
  | Enter | Initscr => (snd (fst (initscr o)), snd (initscr o))
  | Exit | Stopscr => stopscr o
  | Del => del o
  end.

Fixpoint run (ops : list op) (o : obj) : list tcall * obj :=
  match ops with
  | [] => ([], o)
  | p :: rest =>
      let '(cs, o') := step p o in
      let '(cs', o'') := run rest o' in
      (cs ++ cs', o'')
  end.

(** Whether [curses.initscr()] and [curses.endwin()] alternate in a trace
    that starts in curses mode or not ([active]); the result says whether
    the trace ends in curses mode. *)
Fixpoint alternates (active : bool) (tr : list tcall) : option bool :=
  match tr with
  | [] => Some active
  | t_initscr :: rest => if active then None else alternates true rest
  | t_endwin :: rest => if active then alternates false rest else None
  | _ :: rest => alternates active rest
  end.



End Window.

(** ** The pure steps of [testOutput.dotests] *)

Module TestOutput.

Definition dot : N := 46.
Definition newline : N := 10.

(** [test = inFile.split('.')[0].split('/')[-1]]; [None] would be an
    [IndexError]. *)
Definition test_name (inFile : Py.str) : option Py.str :=
  match Py.index (PyStr.split dot inFile) 0 with
  | Some stem => Py.index (PyStr.split FileMenu.slash stem) (-1)
  | None => None
  end.

(** [filepos = runstr.find('@in')], set to [None] when negative. *)
Definition filepos (runstr : Py.str) : option Z :=
  let p := PyStr.find (Py.of_string "@in") runstr in
  if p <? 0 then None else Some p.

(** [if filepos:] *)
Definition truthy (pos : option Z) : bool :=
  match pos with
  | Some p => negb (p =? 0)
  | None => false
  end.

(** The command run for one case. *)
Definition cmd_for (runstr inFile : Py.str) : Py.str :=
  match filepos runstr with
  | Some p =>
      if negb (p =? 0)
      then Py.slice runstr 0 p ++ inFile ++ PyStr.slice_from runstr (p + 3)
      else runstr
  | None => runstr
  end.

(** Whether [runproc] opens the case file and passes it as standard
    input: [if not filepos]. *)
Definition reads_stdin (runstr : Py.str) : bool := negb (truthy (filepos runstr)).

(** [out], from the standard output of the program. *)
Definition out_lines (stdout : Py.str) : list Py.str :=
  map Py.rstrip
      (filter (fun line => negb (Py.str_eqb (Py.strip line) []))
              (PyStr.split newline stdout)).

(** [exp], from the [readlines()] of the file of expected output. *)
Definition exp_lines (lines : list Py.str) : list Py.str :=
  map Py.rstrip
      (filter (fun line => negb (Py.str_eqb (Py.strip line) [newline]))
              lines).

(** [for i, line in enumerate(exp): if line != out[i]: ... break], from
    index [i] on; an [out[i]] out of range would raise. *)
Fixpoint compare_from (out : list Py.str) (i : Z) (exp : list Py.str)
  : option bool :=
  match exp with
  | [] => Some true
  | line :: rest =>
      match Py.index out i with
      | None => None
      | Some o =>
          if negb (Py.str_eqb line o) then Some false
          else compare_from out (i + 1) rest
      end
  end.

(** [matches] *)
Definition matches (out exp : list Py.str) : option bool :=
  if Py.len out =? Py.len exp then compare_from out 0 exp else Some false.

End TestOutput.

(** ** What a real window accepts *)

Module Screen.

(** The models above record every call the code makes, in order.  A real
    curses window raises [curses.error] at a write or a cursor move whose
    position is not inside it, and the call that the code was in ends
    there; the other calls do not depend on the size of the window.  A
    trace whose calls are all inside the window is therefore the trace of
    a real run that raises no [curses.error]. *)
Definition inside (height width : Z) (c : call) : bool :=
  match c with
  | insstr y x _ _ | move y x =>
      (0 <=? y) && (y <? height) && (0 <=? x) && (x <? width)
  | _ => true
  end.

Definition all_inside (height width : Z) (cs : list call) : bool :=
  forallb (inside height width) cs.

End Screen.

(** ** The key table of the diff session, pane by pane *)

Module Pane.

Import SplitPane.

(** The offset a directional key gives a pane that is active: [h] is the
    last known height, [n] the number of lines of the pane's buffer and
    [may_right] whether the pane may still scroll to the right.  This is
    the table of the specification for one pane; it is compared with the
    two-pane handler [Diff.on_key] below. *)
Definition moved (ch h n : Z) (may_right : bool) (p : pos) : pos :=
  let '(row, col) := p in
  if ch =? KEY_HOME then (-1, col)
  else if ch =? KEY_END then (if h <? n then n - h + 1 else row, col)
  else if ch =? KEY_PPAGE then
    (if row - (h - 4) <? 0 then -1 else row - (h - 4), col)
  else if ch =? KEY_NPAGE then
    (if h <? n
     then if row + (h - 4) >? n - h then n - h + 1 else row + (h - 4)
     else row, col)
  else if ch =? KEY_UP then (row - 1, col)
  else if ch =? KEY_DOWN then (row + 1, col)
  else if ch =? KEY_LEFT then (row, if col >? 0 then col - 1 else col)
  else if ch =? KEY_RIGHT then (row, if may_right then col + 1 else col)
  else p.

(** Whether the left pane may scroll right: the boundary is past column 2
    and the longest left line reaches past it. *)
Definition left_may_right (lwidth : Z) (s : Diff.state) : bool :=
  let middle := Diff.lastwidth s / 2 + Diff.paneshmt s in
  (middle >? 2) && (lwidth - snd (Diff.lpos s) >? middle - 2).

(** Whether the right pane may scroll right: the boundary is inside the
    window and the longest right line reaches past the right edge. *)
Definition right_may_right (rwidth : Z) (s : Diff.state) : bool :=
  let middle := Diff.lastwidth s / 2 + Diff.paneshmt s in
  (middle <? Diff.lastwidth s)
  && (rwidth - snd (Diff.rpos s) >? Diff.lastwidth s - middle - 2).

End Pane.

(** * Properties *)

(** ** Python built-ins *)

Lemma str_eqb_eq (a b : Py.str) : Py.str_eqb a b = true <-> a = b.
Proof.
  revert b; induction a as [|x a IH]; intros [|y b]; simpl;
    try (split; [discriminate | discriminate]); [tauto|].
  rewrite andb_true_iff, N.eqb_eq, IH.
  split; [intros [-> ->]; reflexivity | intros E; inversion E; auto].
Qed.

Lemma range_In (a b i : Z) : In i (Py.range a b) <-> a <= i < b.
Proof.
  unfold Py.range. rewrite in_map_iff. split.
  - intros (k & <- & Hk). apply in_seq in Hk. lia.
  - intros H. exists (Z.to_nat (i - a)). split; [lia|].
    apply in_seq. lia.
Qed.

Lemma range_NoDup (a b : Z) : NoDup (Py.range a b).
Proof.
  unfold Py.range. apply Injective_map_NoDup.
  - intros x y H. lia.
  - apply seq_NoDup.
Qed.

(** ** The split-pane renderer *)

Section SplitPaneRows.
Import SplitPane.
Variables (width : Z) (lhs : list Py.str) (lpos : pos)
          (rhs : list Py.str) (rpos : pos) (highlight : bool)
          (rstart lstop rstop : Z).

Ltac cases :=
  repeat match goal with
    | |- context [?a >=? ?b] => rewrite (Z.geb_leb a b)
    | |- context [?a <=? ?b] => destruct (Z.leb_spec a b)
    | |- context [?a <? ?b] => destruct (Z.ltb_spec a b)
    | |- context [?a =? ?b] => destruct (Z.eqb_spec a b)
    end; simpl; try reflexivity; try lia.

Lemma row_color_style (i : Z) (color : attr) :
  (highlight = false -> color = stdcolor) ->
  row_color lhs lpos rhs rpos highlight i color
  = row_style highlight lhs lpos rhs rpos i.
Proof.
  intros Hc. unfold row_color, row_style, landing, same_after_trim.
  destruct highlight; simpl; [|auto].
  rewrite (Z.add_comm i (fst lpos)), (Z.add_comm i (fst rpos)).
  cases.
Qed.

Lemma draw_lhs_put (i : Z) (color : attr) :
  draw_lhs lhs lpos lstop i color
  = put i 0 1 color (pane_shows lhs lpos lstop i).
Proof.
  unfold draw_lhs, pane_shows, landing.
  rewrite (Z.add_comm i (fst lpos)). cases.
Qed.

Lemma draw_rhs_put (i : Z) (color : attr) :
  draw_rhs width rhs rpos rstart rstop i color
  = put i rstart (width - 4) color (pane_shows rhs rpos rstop i).
Proof.
  unfold draw_rhs, pane_shows, landing.
  rewrite (Z.add_comm i (fst rpos)). cases.
Qed.

Lemma row_calls_put (i j x xend : Z) (color : attr) (s : shown) :
  row_calls i (put j x xend color s)
  = if j =? i then put j x xend color s else [].
Proof.
  destruct s; simpl; destruct (j =? i); reflexivity.
Qed.

Lemma row_calls_app (i : Z) (a b : list call) :
  row_calls i (a ++ b) = row_calls i a ++ row_calls i b.
Proof. apply filter_app. Qed.

Lemma draw_rows_other (i : Z) (rows : list Z) (color : attr) :
  ~ In i rows ->
  row_calls i (draw_rows width lhs lpos rhs rpos highlight rstart lstop
                         rstop rows color) = [].
Proof.
  revert color; induction rows as [|j rows IH]; intros color Hn;
    [reflexivity|].
  simpl. rewrite !row_calls_app, draw_lhs_put, draw_rhs_put,
    !row_calls_put.
  destruct (Z.eqb_spec j i) as [->|_]; [elim Hn; left; reflexivity|].
  simpl. apply IH. intros H; apply Hn; right; exact H.
Qed.

Lemma draw_rows_row (i : Z) (rows : list Z) (color : attr) :
  NoDup rows -> In i rows ->
  (highlight = false -> color = stdcolor) ->
  row_calls i (draw_rows width lhs lpos rhs rpos highlight rstart lstop
                         rstop rows color)
  = put i 0 1 (row_style highlight lhs lpos rhs rpos i)
        (pane_shows lhs lpos lstop i)
    ++ put i rstart (width - 4) (row_style highlight lhs lpos rhs rpos i)
         (pane_shows rhs rpos rstop i).
Proof.
  revert color; induction rows as [|j rows IH]; intros color Hnd Hin Hc;
    [contradiction|].
  inversion Hnd as [|? ? Hj Hnd']; subst.
  simpl. rewrite !row_calls_app, draw_lhs_put, draw_rhs_put,
    !row_calls_put, (row_color_style j color Hc).
  destruct (Z.eqb_spec j i) as [->|Hne].
  - rewrite draw_rows_other by exact Hj. rewrite app_nil_r. reflexivity.
  - simpl. apply IH; [exact Hnd'| |].
    + destruct Hin as [E|H]; [contradiction|exact H].
    + intros Hh. unfold row_style. rewrite Hh. reflexivity.
Qed.
End SplitPaneRows.

Lemma drawsplitpane_row (height width : Z) (lhs : list Py.str)
    (lpos : SplitPane.pos) (rhs : list Py.str) (rpos : SplitPane.pos)
    (highlight : bool) (paneshmt halfgap i : Z) :
  1 <= i < height ->
  row_calls i (fst (SplitPane.drawsplitpane height width lhs lpos rhs rpos
                      highlight paneshmt halfgap))
  = SplitPane.put i 0 1 (SplitPane.row_style highlight lhs lpos rhs rpos i)
      (SplitPane.pane_shows lhs lpos
         (SplitPane.lstop_of width (snd lpos) paneshmt halfgap) i)
    ++ SplitPane.put i
         (SplitPane.rstart_of width (snd lpos) paneshmt halfgap) (width - 4)
         (SplitPane.row_style highlight lhs lpos rhs rpos i)
         (SplitPane.pane_shows rhs rpos
            (SplitPane.rstop_of width (snd lpos) (snd rpos) paneshmt halfgap)
            i).
Proof.
  intros Hi.
  unfold SplitPane.drawsplitpane, SplitPane.rstop_of, SplitPane.lstop_of,
    SplitPane.rstart_of.
  assert (Hlab : row_calls i
            (fst (fst (SplitPane.layout width (snd lpos) paneshmt halfgap)))
          = []).
  { assert (E : (0 =? i) = false) by (apply Z.eqb_neq; lia).
    unfold SplitPane.layout.
    destruct (negb (paneshmt =? 0));
      [destruct (_ >=? _); [|destruct (_ <=? _)]|];
      cbn -[Z.eqb]; rewrite ?E; reflexivity. }
  destruct (SplitPane.layout width (snd lpos) paneshmt halfgap)
    as [[labels rstart] lstop].
  simpl in *. rewrite !row_calls_app, Hlab. simpl.
  rewrite app_nil_r.
  apply draw_rows_row; [apply range_NoDup | apply range_In; lia | auto].
Qed.

Lemma row_calls_In (i : Z) (c : call) (cs : list call) :
  In c (row_calls i cs) -> In c cs.
Proof. unfold row_calls. rewrite filter_In. tauto. Qed.





(** ** The diff session controller *)

Lemma pass_pos (lhs rhs : list Py.str) (lwidth rwidth height width ch : Z)
    (s : Diff.state) :
  let s' := snd (Diff.pass lhs rhs lwidth rwidth height width ch s) in
  let k := fst (Diff.on_key lhs rhs lwidth rwidth ch s) in
  Diff.lpos s' = Diff.lpos k /\ Diff.rpos s' = Diff.rpos k
  /\ Diff.singlescroll s' = Diff.singlescroll k
  /\ Diff.leftscroll s' = Diff.leftscroll k.
Proof.
  cbv zeta. unfold Diff.pass.
  destruct (Diff.on_key lhs rhs lwidth rwidth ch s) as [k [|]]; simpl;
    [|tauto].
  unfold SplitPane.drawsplitpane.
  destruct (SplitPane.layout _ _ _ _) as [[? ?] ?]. simpl. tauto.
Qed.

Ltac directional_cases H :=
  unfold Diff.directional in H;
  repeat (apply orb_true_iff in H; destruct H as [H|H]);
  apply Z.eqb_eq in H; subst.

(** C2 fails on the code: at the home position both row offsets are -1,
    and the Up key takes them to -2. *)
Theorem up_at_top_row_below_minus_one :
  snd (Diff.showdiff [Py.of_string "a"] [Py.of_string "a"] 24 80
         [Diff.mkinput 24 80 27])
  = Diff.Exited (Diff.mkstate (-1, 0) (-1, 0) 24 80 false true true 0)
  /\ snd (Diff.showdiff [Py.of_string "a"] [Py.of_string "a"] 24 80
            [Diff.mkinput 24 80 KEY_UP; Diff.mkinput 24 80 27])
     = Diff.Exited (Diff.mkstate (-2, 0) (-2, 0) 24 80 false true true 0).
Proof. split; vm_compute; reflexivity. Qed.

(** ** The menu *)

Section MenuScroll.
Import Menu.
Variables (title : Py.str) (body : list (list Py.str))
          (err0 : option errarg) (choices : list Py.str) (curs : Z).

Lemma draw_section_snd (lshift : Z) (section : list Py.str) (linenum : Z) :
  snd (draw_section lshift section linenum) = linenum + Py.len section.
Proof.
  revert linenum; induction section as [|line rest IH]; intros linenum.
  - simpl. unfold Py.len. simpl. lia.
  - simpl. specialize (IH (linenum + 1)).
    destruct (draw_section lshift rest (linenum + 1)) as [cs ln].
    simpl in *. unfold Py.len in *. cbn [List.length].
    rewrite Nat2Z.inj_succ. lia.
Qed.

Lemma draw_body_snd (lshift : Z) (sections : list (list Py.str))
    (linenum : Z) :
  snd (draw_body lshift sections linenum)
  = snd (draw_body 0 sections linenum)
  /\ linenum <= snd (draw_body lshift sections linenum).
Proof.
  revert linenum; induction sections as [|section rest IH]; intros linenum.
  - simpl. lia.
  - simpl.
    pose proof (draw_section_snd lshift section linenum) as E1.
    pose proof (draw_section_snd 0 section linenum) as E2.
    destruct (draw_section lshift section linenum) as [cs ln].
    destruct (draw_section 0 section linenum) as [cs0 ln0].
    simpl in E1, E2. subst ln ln0.
    pose proof (IH (linenum + Py.len section + 1)) as [E3 E4].
    destruct (draw_body lshift rest (linenum + Py.len section + 1))
      as [cs' ln'].
    destruct (draw_body 0 rest (linenum + Py.len section + 1))
      as [cs0' ln0'].
    simpl in *. unfold Py.len in *. lia.
Qed.

(** The choices never start above row 2: the title row and the blank row
    come first. *)
Lemma choices_top_ge_2 : 2 <= choices_top body.
Proof.
  unfold choices_top. pose proof (draw_body_snd 0 body 1) as [_ H]. lia.
Qed.

Local Abbreviation N := (Py.len choices).
Local Abbreviation A := (choices_top body).

Lemma index_in_range (h : Z) :
  0 <= h < N -> exists c, Py.index choices h = Some c.
Proof.
  intros Hh. unfold Py.index.
  destruct (Z.ltb_spec h 0); [lia|].
  destruct (Z.leb_spec 0 h); [|lia].
  destruct (Z.ltb_spec h (Py.len choices)); [|lia].
  simpl. destruct (nth_error choices (Z.to_nat h)) eqn:E; [eauto|].
  apply nth_error_None in E. unfold Py.len in Hh. lia.
Qed.

(** A pass with no error to show leaves the state to the key alone. *)
Lemma pass_noerr (i : input) (s : state) :
  err s = None -> 0 <= hpos s < N ->
  snd (pass title body err0 choices false curs i s)
  = Some (on_key choices false (in_height i) A (in_key i) s).
Proof.
  intros He Hh. destruct (index_in_range (hpos s) Hh) as [c Ec].
  destruct s as [e ec t h]. cbn [err hpos] in *. subst e.
  unfold pass, frame, expire, draw_err.
  cbn [truthy andb err errorcounter topline hpos].
  pose proof (draw_body_snd (lshift_of title body err0 choices
                               (in_width i)) body 1) as [E _].
  destruct (draw_body _ body 1) as [cbody linenum]. cbn [snd] in E.
  unfold draw_cursor. cbn [hpos topline]. rewrite Ec.
  unfold choices_top. rewrite <- E.
  destruct (negb (curs =? 0)); [destruct (_ <? _)|]; reflexivity.
Qed.

Lemma after_app (xs ys : list input) (s : state) :
  after title body err0 choices false curs (xs ++ ys) s
  = match after title body err0 choices false curs xs s with
    | Some s' => after title body err0 choices false curs ys s'
    | None => None
    end.
Proof.
  revert s; induction xs as [|x xs IH]; intros s; [reflexivity|].
  simpl. destruct (pass _ _ _ _ _ _ x s) as [cs [[s'|v]|]]; auto.
Qed.


Lemma after_step (i : input) (xs : list input) (s s1 : state) :
  err s = None -> 0 <= hpos s < N ->
  on_key choices false (in_height i) A (in_key i) s = Continue s1 ->
  after title body err0 choices false curs (i :: xs) s
  = after title body err0 choices false curs xs s1.
Proof.
  intros He Hh Hk. simpl.
  pose proof (pass_noerr i s He Hh) as E.
  destruct (pass _ _ _ _ _ _ i s) as [cs o]. simpl in E. subst o.
  rewrite Hk. reflexivity.
Qed.

Variables (H W : Z).

Local Abbreviation down := (mkinput H W KEY_DOWN).
Local Abbreviation up := (mkinput H W KEY_UP).

(** [n] presses of Down from a state whose selection is on a visible
    row. *)
Lemma after_downs (n : nat) : forall ec t h,
  0 <= h -> h + Z.of_nat n <= N - 1 -> A + h - t < H ->
  after title body err0 choices false curs (repeat down n)
        (mkstate None ec t h)
  = Some (mkstate None ec
            (Z.max t (h + Z.of_nat n - (H - A) + 1)) (h + Z.of_nat n)).
Proof.
  induction n as [|n IH]; intros ec t h Hh Hn Hv.
  - simpl. f_equal. f_equal; lia.
  - cbn [repeat].
    rewrite (after_step down _ _
               (mkstate None ec
                  (if A + (h + 1) - t =? H then t + 1 else t) (h + 1))).
    2: reflexivity.
    2: cbn [hpos]; lia.
    2: { unfold on_key. cbn.
         destruct (Z.ltb_spec h (N - 1)); [|lia].
         destruct (_ =? H); reflexivity. }
    rewrite IH by (destruct (Z.eqb_spec (A + (h + 1) - t) H); lia).
    f_equal. f_equal; destruct (Z.eqb_spec (A + (h + 1) - t) H); lia.
Qed.

(** [n] presses of Up from a state whose selection is not above the top
    line. *)
Lemma after_ups (n : nat) : forall ec t h,
  t <= h -> Z.of_nat n <= h -> h < N ->
  after title body err0 choices false curs (repeat up n)
        (mkstate None ec t h)
  = Some (mkstate None ec (Z.min t (h - Z.of_nat n)) (h - Z.of_nat n)).
Proof.
  induction n as [|n IH]; intros ec t h Ht Hn Hh.
  - simpl. f_equal. f_equal; lia.
  - cbn [repeat].
    rewrite (after_step up _ _
               (mkstate None ec
                  (if A + (h - 1) - t <? A then t - 1 else t) (h - 1))).
    2: reflexivity.
    2: cbn [hpos]; lia.
    2: { unfold on_key. cbn.
         destruct (Z.gtb_spec h 0); [|lia].
         destruct (_ <? A); reflexivity. }
    rewrite IH by (destruct (Z.ltb_spec (A + (h - 1) - t) A); lia).
    f_equal. f_equal; destruct (Z.ltb_spec (A + (h - 1) - t) A); lia.
Qed.


End MenuScroll.

(** C5 as stated fails: on a window of height 5 with ten choices, two
    presses of Down from the initial state reach [selected = 2, topLine =
    0]; one more Down and one Up then leave [topLine = 1]. *)
Lemma down_up_counterexample :
  snd (Menu.showmenu [] [] None Menu.ten_choices false 0 0 0
         [Menu.mkinput 5 80 KEY_DOWN; Menu.mkinput 5 80 KEY_DOWN])
  = Menu.Blocked (Menu.mkstate None None 0 2)
  /\ Menu.after [] [] None Menu.ten_choices false 0
       [Menu.mkinput 5 80 KEY_DOWN; Menu.mkinput 5 80 KEY_UP]
       (Menu.mkstate None None 0 2)
     = Some (Menu.mkstate None None 1 2).
Proof. split; vm_compute; reflexivity. Qed.






(** C3 fails on the code.  A file menu of ten entries on a window of
    height 10 is entered with [topline = 3], [hpos = 4] and a two-line
    error: the compensating shift is cut to 1 row by [hpos], six passes
    later the counter is 0 with the message still shown, and the pass
    after that clears the message and takes 3 rows off, which leaves
    [topline = 1].  On a window where all choices fit no shift is applied
    and the same 2 rows are taken off all the same. *)
Theorem error_restore_misses_topline :
  let body := [[Py.of_string "Select a text file"];
               [Py.of_string "Path: /tmp"]] in
  let err := Some (Menu.ErrList [Py.of_string "[Errno 13] Permission denied";
                                 Py.of_string " '/tmp/x'"]) in
  snd (Menu.showmenu [] body err Menu.ten_choices false 0 3 4
         (repeat (Menu.mkinput 10 80 120) 6))
  = Menu.Blocked (Menu.mkstate err (Some 0) 4 4)
  /\ snd (Menu.frame [] body err Menu.ten_choices 0 10 80
            (Menu.mkstate err (Some 0) 4 4))
     = Some (Menu.mkstate None (Some 0) 1 4, 6)
  /\ snd (Menu.showmenu [] body (Some (Menu.ErrStr (Py.of_string "E")))
            (firstn 3 Menu.ten_choices) false 0 1 1
            (repeat (Menu.mkinput 24 80 120) 7))
     = Menu.Blocked (Menu.mkstate None (Some 0) 0 1).
Proof. cbv zeta. repeat split; vm_compute; reflexivity. Qed.

(** C9 fails on the code: with an empty choice list and [curs != 0] the
    first frame raises the [IndexError] of [choices[hpos]], in interactive
    and in info-box mode alike, before any key is read; with [curs = 0] the
    same call returns on a cancel key. *)
Theorem empty_choices_cursor_raises :
  snd (Menu.showmenu [] [[]] None [] false 1 0 0 [Menu.mkinput 24 80 27])
  = Menu.RaisedIndexError
  /\ snd (Menu.showmenu [] [[]] None [] true 2 0 0 [Menu.mkinput 24 80 27])
     = Menu.RaisedIndexError
  /\ snd (Menu.showmenu [] [[]] None [] false 0 0 0 [Menu.mkinput 24 80 27])
     = Menu.Returned Menu.RetNoneNone.
Proof. repeat split; vm_compute; reflexivity. Qed.

(** * Further properties of the code *)

(** ** The keys of the menu *)

Ltac bool_props :=
  repeat match goal with
    | H : (_ <? _) = true |- _ => apply Z.ltb_lt in H
    | H : (_ <? _) = false |- _ => apply Z.ltb_ge in H
    | H : (_ <=? _) = true |- _ => apply Z.leb_le in H
    | H : (_ <=? _) = false |- _ => apply Z.leb_gt in H
    | H : (_ =? _) = true |- _ => apply Z.eqb_eq in H
    | H : (_ =? _) = false |- _ => apply Z.eqb_neq in H
    | H : (_ && _) = true |- _ => apply andb_true_iff in H; destruct H
    end.

Ltac split_ifs H :=
  repeat match type of H with
    | context [if ?c then _ else _] => destruct c eqn:?
    end.

(** X1.  A key that does not end the call keeps the scroll state in
    range and the selection on a visible row: from [0 <= topline <= hpos <
    len(choices)] with the selected row above the window's last row, every
    key leads to such a state again, and no key touches the error or its
    counter. *)
Theorem menu_keys_keep_selection_visible :
  forall choices infobox H top ch s s',
    0 <= Menu.topline s <= Menu.hpos s ->
    Menu.hpos s < Py.len choices ->
    top + Menu.hpos s - Menu.topline s < H ->
    Menu.on_key choices infobox H top ch s = Menu.Continue s' ->
    0 <= Menu.topline s' <= Menu.hpos s'
    /\ Menu.hpos s' < Py.len choices
    /\ top + Menu.hpos s' - Menu.topline s' < H
    /\ Menu.err s' = Menu.err s
    /\ Menu.errorcounter s' = Menu.errorcounter s.
Proof.
  intros choices infobox H top ch [e ec t h] s' Ht Hh Hv Hk.
  cbn [Menu.topline Menu.hpos Menu.err Menu.errorcounter] in *.
  unfold Menu.on_key in Hk.
  cbn [Menu.topline Menu.hpos Menu.err Menu.errorcounter] in Hk.
  rewrite ?Z.gtb_ltb, ?Z.geb_leb in Hk.
  split_ifs Hk; try discriminate; inversion Hk; subst; clear Hk;
    cbn [Menu.topline Menu.hpos Menu.err Menu.errorcounter];
    bool_props; repeat split; lia.
Qed.

Lemma menu_keys_keep_selection_visible_witness :
  0 <= 4 <= 6 /\ 6 < 10 /\ 2 + 6 - 4 < 5.
Proof.
  pose proof (menu_keys_keep_selection_visible Menu.ten_choices false 5 2
                KEY_DOWN (Menu.mkstate None None 3 5)
                (Menu.mkstate None None 4 6)
                ltac:(cbn; lia) ltac:(vm_compute; reflexivity)
                ltac:(cbn; lia) eq_refl) as (H1 & H2 & H3 & _).
  exact (conj H1 (conj H2 H3)).
Defined.

Section MenuRun.
Import Menu.
Variables (title : Py.str) (body : list (list Py.str))
          (err0 : option errarg) (choices : list Py.str)
          (infobox : bool) (curs : Z).

Lemma expire_fields (s : state) :
  hpos (expire err0 s) = hpos s
  /\ errorcounter (expire err0 s) = errorcounter s.
Proof.
  unfold expire. destruct (truthy (err s) && _); cbn; tauto.
Qed.

Lemma draw_err_hpos (height lshift linenum : Z) (s : state) :
  hpos (snd (draw_err err0 choices height lshift linenum s)) = hpos s.
Proof.
  unfold draw_err. destruct (truthy (err s)); [|reflexivity].
  destruct (match err s with Some (ErrStr e) => _ | Some (ErrList l) => _
                             | None => _ end) as [cs ln].
  destruct (errorcounter s); reflexivity.
Qed.

(** The frame leaves [hpos] as it is, and it raises only when
    [choices[hpos]] does. *)
Lemma frame_hpos (height width : Z) (s : state) :
  (forall s' top, snd (frame title body err0 choices curs height width s)
                  = Some (s', top) -> hpos s' = hpos s)
  /\ (0 <= hpos s < Py.len choices ->
      snd (frame title body err0 choices curs height width s) <> None).
Proof.
  unfold frame.
  destruct (draw_body _ body 1) as [cbody linenum].
  pose proof (draw_err_hpos height (lshift_of title body err0 choices width)
                (linenum + 1) (expire err0 s)) as E.
  destruct (draw_err _ _ _ _ _ _) as [[cerr top] s1]. cbn [snd] in E.
  destruct (expire_fields s) as [E' _]. rewrite E' in E.
  split.
  - intros s' top'. destruct (draw_cursor _ _ _ _ _ _); cbn [snd];
      [|discriminate]. intros X; inversion X; subst. exact E.
  - intros Hh. unfold draw_cursor. rewrite E.
    destruct (index_in_range choices (hpos s) Hh) as [c ->].
    destruct (negb (curs =? 0)); [destruct (_ <? _)|]; discriminate.
Qed.

Lemma on_key_hpos_range (H top ch : Z) (s s' : state) :
  0 <= hpos s < Py.len choices ->
  on_key choices infobox H top ch s = Continue s' ->
  0 <= hpos s' < Py.len choices.
Proof.
  destruct s as [e ec t h]. cbn [hpos]. intros Hh Hk.
  unfold on_key in Hk. cbn [topline hpos err errorcounter] in Hk.
  rewrite ?Z.gtb_ltb, ?Z.geb_leb in Hk.
  split_ifs Hk; try discriminate; inversion Hk; subst; clear Hk;
    cbn [hpos]; bool_props; lia.
Qed.

Lemma loop_no_index_error (inputs : list input) : forall s,
  0 <= hpos s < Py.len choices ->
  snd (loop title body err0 choices infobox curs inputs s)
  <> RaisedIndexError.
Proof.
  induction inputs as [|i rest IH]; intros s Hh; [discriminate|].
  cbn [loop]. unfold pass.
  destruct (frame_hpos (in_height i) (in_width i) s) as [Hsame Hsome].
  specialize (Hsome Hh).
  destruct (frame title body err0 choices curs (in_height i) (in_width i) s)
    as [cs [[s1 top]|]]; [|elim Hsome; reflexivity].
  cbn [snd] in Hsame. specialize (Hsame s1 top eq_refl).
  destruct (on_key choices infobox (in_height i) top (in_key i) s1)
    as [s2|v] eqn:Hk; [|discriminate].
  assert (H2 : 0 <= hpos s2 < Py.len choices)
    by (apply (on_key_hpos_range _ _ _ _ _ ltac:(rewrite Hsame; exact Hh)
                 Hk)).
  specialize (IH s2 H2).
  destruct (loop title body err0 choices infobox curs rest s2) as [cs' r].
  exact IH.
Qed.
End MenuRun.

(** X2.  With a non-empty choice list and [topline] and [hpos] given in
    range, [showmenu] never raises the [IndexError] of [choices[hpos]]:
    whatever the mode, the cursor setting, the error, the window sizes and
    the keys. *)
Theorem showmenu_no_index_error :
  forall title body err0 choices infobox curs topline hpos inputs,
    0 <= hpos < Py.len choices ->
    topline < Py.len choices ->
    snd (Menu.showmenu title body err0 choices infobox curs topline hpos
           inputs)
    <> Menu.RaisedIndexError.
Proof.
  intros title body err0 choices infobox curs topline hpos inputs Hh Ht.
  unfold Menu.showmenu. apply loop_no_index_error. cbn [Menu.hpos].
  destruct (Z.ltb_spec hpos topline); lia.
Qed.

Lemma showmenu_no_index_error_witness :
  snd (Menu.showmenu [] [[]] None Menu.ten_choices false 1 0 9
         [Menu.mkinput 24 80 KEY_NPAGE; Menu.mkinput 3 10 KEY_DOWN])
  <> Menu.RaisedIndexError.
Proof.
  exact (showmenu_no_index_error [] [[]] None Menu.ten_choices false 1 0 9
           [Menu.mkinput 24 80 KEY_NPAGE; Menu.mkinput 3 10 KEY_DOWN]
           ltac:(vm_compute; split; [discriminate | reflexivity])
           ltac:(vm_compute; reflexivity)).
Defined.

(** X3.  In a list with [hpos] in range, PageDown moves the selection
    down by 4 rows or to the last choice, never up and never past the end;
    PageUp moves it up by 4 rows or to the first choice, never down and
    never before the start. *)
Theorem page_keys_clamp :
  forall choices H top s,
    0 <= Menu.hpos s < Py.len choices ->
    (exists s',
       Menu.on_key choices false H top KEY_NPAGE s = Menu.Continue s'
       /\ Menu.hpos s' = Z.min (Menu.hpos s + 4) (Py.len choices - 1)
       /\ Menu.hpos s <= Menu.hpos s' <= Py.len choices - 1)
    /\ (exists s',
          Menu.on_key choices false H top KEY_PPAGE s = Menu.Continue s'
          /\ Menu.hpos s' = Z.max (Menu.hpos s - 4) 0
          /\ 0 <= Menu.hpos s' <= Menu.hpos s).
Proof.
  intros choices H top [e ec t h]. cbn [Menu.hpos]. intros Hh.
  unfold Menu.on_key. cbn [Menu.topline Menu.hpos Menu.err Menu.errorcounter].
  change (KEY_NPAGE =? 27) with false. change (KEY_NPAGE =? 81) with false.
  change (KEY_NPAGE =? 113) with false.
  change (KEY_NPAGE =? KEY_HOME) with false.
  change (KEY_NPAGE =? KEY_END) with false.
  change (KEY_NPAGE =? KEY_UP) with false.
  change (KEY_NPAGE =? KEY_DOWN) with false.
  change (KEY_NPAGE =? KEY_PPAGE) with false.
  change (KEY_NPAGE =? KEY_NPAGE) with true.
  change (KEY_PPAGE =? 27) with false. change (KEY_PPAGE =? 81) with false.
  change (KEY_PPAGE =? 113) with false.
  change (KEY_PPAGE =? KEY_HOME) with false.
  change (KEY_PPAGE =? KEY_END) with false.
  change (KEY_PPAGE =? KEY_UP) with false.
  change (KEY_PPAGE =? KEY_DOWN) with false.
  change (KEY_PPAGE =? KEY_PPAGE) with true.
  change (KEY_PPAGE =? KEY_NPAGE) with false.
  change (KEY_PPAGE =? KEY_ENTER) with false.
  change (KEY_PPAGE =? 10) with false. change (KEY_PPAGE =? 13) with false.
  cbn [orb andb]. rewrite ?Z.geb_leb, ?Z.gtb_ltb.
  split;
    repeat match goal with
      | |- context [if ?c then _ else _] => destruct c eqn:?
      end;
    eexists; (split; [reflexivity|]); cbn [Menu.hpos]; bool_props; lia.
Qed.

Lemma page_keys_clamp_witness :
  exists s',
    Menu.on_key Menu.ten_choices false 5 2 KEY_NPAGE
                (Menu.mkstate None None 5 7) = Menu.Continue s'
    /\ Menu.hpos s' = 9.
Proof.
  destruct (page_keys_clamp Menu.ten_choices 5 2 (Menu.mkstate None None 5 7)
              ltac:(vm_compute; split; [discriminate | reflexivity]))
    as [(s' & Hk & Hh & _) _].
  exists s'. split; [exact Hk | exact Hh].
Defined.

(** ** The error countdown and the keys that end the call *)

Section MenuPhases.
Import Menu.
Variables (title : Py.str) (body : list (list Py.str))
          (err0 : option errarg) (choices : list Py.str)
          (infobox : bool) (curs : Z).

Lemma on_key_err (H top ch : Z) (s s' : state) :
  on_key choices infobox H top ch s = Continue s' ->
  err s' = err s /\ errorcounter s' = errorcounter s.
Proof.
  destruct s as [e ec t h]. intros Hk. unfold on_key in Hk.
  cbn [topline hpos err errorcounter] in Hk.
  split_ifs Hk; try discriminate; inversion Hk; subst; cbn; tauto.
Qed.

(** What a frame does to the error and its counter. *)
Lemma frame_error_phase (H W : Z) (s s' : state) (top : Z) :
  snd (frame title body err0 choices curs H W s) = Some (s', top) ->
  if truthy (err s) then
    match errorcounter s with
    | None => err s' = err s /\ errorcounter s' = Some 5
    | Some c =>
        if c =? 0 then err s' = None /\ errorcounter s' = Some 0
        else err s' = err s /\ errorcounter s' = Some (c - 1)
    end
  else err s' = err s /\ errorcounter s' = errorcounter s.
Proof.
  destruct s as [e ec t h]. cbn [err errorcounter].
  assert (Hfin : forall (cs : list call) (o : option (list call)) (s1 : state)
                        (a : Z) (P : Prop),
             (err s1 = err s' -> errorcounter s1 = errorcounter s' -> P) ->
             snd match o with
                 | Some cc => (cs ++ cc ++ [refresh], Some (s1, a))
                 | None => (cs, None)
                 end = Some (s', top) -> P).
  { intros cs [cc|] s1 a P HP; cbn [snd]; [|discriminate].
    intros X; inversion X; subst. apply HP; reflexivity. }
  unfold frame, expire, draw_err. cbn [err errorcounter topline hpos].
  destruct (draw_body _ body 1) as [cbody linenum].
  destruct (truthy e) eqn:He; cbn [andb].
  - destruct ec as [c|].
    + destruct (Z.eqb_spec c 0) as [->|Hc];
        cbn [err errorcounter topline hpos truthy].
      * apply Hfin. cbn. intros <- <-. tauto.
      * rewrite He.
        destruct (match e with Some (ErrStr _) => _ | Some (ErrList _) => _
                               | None => _ end) as [cs ln].
        apply Hfin. cbn. intros <- <-. tauto.
    + cbn [err errorcounter topline hpos truthy andb]. rewrite He.
      destruct (match e with Some (ErrStr _) => _ | Some (ErrList _) => _
                             | None => _ end) as [cs ln].
      apply Hfin. cbn. intros <- <-. tauto.
  - cbn [err errorcounter topline hpos truthy andb]. rewrite He.
    apply Hfin. cbn. intros <- <-. tauto.
Qed.

Lemma pass_continue (i : input) (s s2 : state) :
  snd (pass title body err0 choices infobox curs i s) = Some (Continue s2) ->
  exists s1 top,
    snd (frame title body err0 choices curs (in_height i) (in_width i) s)
    = Some (s1, top)
    /\ on_key choices infobox (in_height i) top (in_key i) s1 = Continue s2.
Proof.
  unfold pass.
  destruct (frame title body err0 choices curs (in_height i) (in_width i) s)
    as [cs [[s1 top]|]]; cbn [snd]; [|discriminate].
  intros X; inversion X. eauto.
Qed.

Lemma after_cons (i : input) (rest : list input) (s s' : state) :
  after title body err0 choices infobox curs (i :: rest) s = Some s' ->
  exists s2,
    snd (pass title body err0 choices infobox curs i s) = Some (Continue s2)
    /\ after title body err0 choices infobox curs rest s2 = Some s'.
Proof.
  cbn [after].
  destruct (pass title body err0 choices infobox curs i s)
    as [cs [[s2|v]|]]; try discriminate.
  intros E. exists s2. split; [reflexivity | exact E].
Qed.

Lemma no_error_stays (inputs : list input) : forall s s',
  truthy (err s) = false ->
  after title body err0 choices infobox curs inputs s = Some s' ->
  err s' = err s /\ errorcounter s' = errorcounter s.
Proof.
  induction inputs as [|i rest IH]; intros s s' He Ha.
  - inversion Ha; subst. tauto.
  - destruct (after_cons i rest s s' Ha) as (s2 & Hp & Hr).
    destruct (pass_continue i s s2 Hp) as (s1 & top & Hf & Hk).
    pose proof (frame_error_phase _ _ _ _ _ Hf) as P. rewrite He in P.
    destruct (on_key_err _ _ _ _ _ Hk) as [E1 E2].
    destruct P as [P1 P2].
    destruct (IH s2 s' ltac:(rewrite E1, P1; exact He) Hr) as [I1 I2].
    split; congruence.
Qed.

Lemma countdown_from (inputs : list input) : forall s s' c,
  truthy (err s) = true -> errorcounter s = Some c -> 0 <= c ->
  after title body err0 choices infobox curs inputs s = Some s' ->
  (Z.of_nat (List.length inputs) <= c ->
     err s' = err s
     /\ errorcounter s' = Some (c - Z.of_nat (List.length inputs)))
  /\ (c < Z.of_nat (List.length inputs) ->
        err s' = None /\ errorcounter s' = Some 0).
Proof.
  induction inputs as [|i rest IH]; intros s s' c He Hc Hpos Ha.
  - inversion Ha; subst. cbn [List.length]. split; [|lia].
    intros _. rewrite Hc, Z.sub_0_r. tauto.
  - destruct (after_cons i rest s s' Ha) as (s2 & Hp & Hr).
    destruct (pass_continue i s s2 Hp) as (s1 & top & Hf & Hk).
    pose proof (frame_error_phase _ _ _ _ _ Hf) as P.
    rewrite He, Hc in P.
    destruct (on_key_err _ _ _ _ _ Hk) as [E1 E2].
    cbn [List.length]. rewrite Nat2Z.inj_succ.
    destruct (Z.eqb_spec c 0) as [->|Hne].
    + destruct P as [P1 P2]. split; [lia|]. intros _.
      destruct (no_error_stays rest s2 s'
                  ltac:(rewrite E1, P1; reflexivity) Hr) as [I1 I2].
      split; congruence.
    + destruct P as [P1 P2].
      destruct (IH s2 s' (c - 1) ltac:(congruence) ltac:(congruence)
                  ltac:(lia) Hr) as [I1 I2].
      split; intros Hlen.
      * destruct (I1 ltac:(lia)) as [J1 J2]. split; [congruence|].
        rewrite J2. f_equal. lia.
      * apply I2. lia.
Qed.


End MenuPhases.

(** X4.  The countdown of a shown error is driven by the passes of the
    loop alone: from the call on, after [k] passes that did not end it
    the error is still set and the counter is [6 - k] for [1 <= k <= 6],
    and the error is gone for [k >= 7], whatever the keys and the window
    sizes were. *)
Theorem error_countdown :
  forall title body err0 choices infobox curs t h inputs s',
    Menu.truthy err0 = true ->
    Menu.after title body err0 choices infobox curs inputs
               (Menu.mkstate err0 None t h) = Some s' ->
    let k := Z.of_nat (List.length inputs) in
    (1 <= k <= 6 ->
       Menu.err s' = err0 /\ Menu.errorcounter s' = Some (6 - k))
    /\ (7 <= k -> Menu.err s' = None /\ Menu.errorcounter s' = Some 0).
Proof.
  intros title body err0 choices infobox curs t h inputs s' He Ha. cbv zeta.
  destruct inputs as [|i rest]; [cbn [List.length]; split; lia|].
  destruct (after_cons _ _ _ _ _ _ i rest _ s' Ha) as (s2 & Hp & Hr).
  destruct (pass_continue _ _ _ _ _ _ i _ s2 Hp) as (s1 & top & Hf & Hk).
  pose proof (frame_error_phase _ _ _ _ _ _ _ _ _ _ Hf) as P.
  cbn [Menu.err Menu.errorcounter] in P. rewrite He in P.
  destruct P as [P1 P2].
  destruct (on_key_err _ _ _ _ _ _ _ Hk) as [E1 E2].
  destruct (countdown_from title body err0 choices infobox curs rest s2 s' 5
              ltac:(rewrite E1, P1; exact He) ltac:(congruence) ltac:(lia)
              Hr) as [I1 I2].
  cbn [List.length]. rewrite Nat2Z.inj_succ. split; intros Hlen.
  - destruct (I1 ltac:(lia)) as [J1 J2]. split; [congruence|].
    rewrite J2. f_equal. lia.
  - apply I2. lia.
Qed.

Lemma error_countdown_witness :
  Menu.err (Menu.mkstate (Some (Menu.ErrStr (Py.of_string "E")))
                         (Some 3) 0 0)
  = Some (Menu.ErrStr (Py.of_string "E"))
  /\ Some 3 = Some (6 - 3).
Proof.
  exact (proj1 (error_countdown [] [[]]
                  (Some (Menu.ErrStr (Py.of_string "E")))
                  Menu.ten_choices false 0 0 0
                  (repeat (Menu.mkinput 24 80 120) 3)
                  (Menu.mkstate (Some (Menu.ErrStr (Py.of_string "E")))
                                (Some 3) 0 0)
                  eq_refl ltac:(vm_compute; reflexivity))
               ltac:(vm_compute; split; discriminate)).
Defined.

(** ** Where a frame of the menu writes *)

Section MenuRows.
Import Menu.

Lemma draw_section_rows (lshift : Z) (section : list Py.str) :
  forall linenum y x t a,
    In (insstr y x t a) (fst (draw_section lshift section linenum)) ->
    linenum < y <= linenum + Py.len section.
Proof.
  induction section as [|line rest IH]; intros linenum y x t a Hin;
    [contradiction|].
  cbn [draw_section] in Hin. specialize (IH (linenum + 1) y x t a).
  destruct (draw_section lshift rest (linenum + 1)) as [cs ln].
  cbn [fst] in *. unfold Py.len in *. cbn [List.length].
  rewrite Nat2Z.inj_succ.
  destruct Hin as [E|Hin]; [inversion E; lia|].
  specialize (IH Hin). lia.
Qed.

Lemma draw_body_rows (lshift : Z) (sections : list (list Py.str)) :
  forall linenum y x t a,
    In (insstr y x t a) (fst (draw_body lshift sections linenum)) ->
    linenum < y <= snd (draw_body lshift sections linenum).
Proof.
  induction sections as [|section rest IH]; intros linenum y x t a Hin;
    [contradiction|].
  cbn [draw_body] in *.
  pose proof (draw_section_rows lshift section linenum y x t a) as R.
  pose proof (draw_section_snd lshift section linenum) as E.
  destruct (draw_section lshift section linenum) as [cs ln].
  cbn [fst snd] in R, E. subst ln.
  specialize (IH (linenum + Py.len section + 1) y x t a).
  pose proof (draw_body_snd lshift rest (linenum + Py.len section + 1))
    as [_ M].
  destruct (draw_body lshift rest (linenum + Py.len section + 1))
    as [cs' ln'].
  cbn [fst snd] in *. apply in_app_or in Hin.
  assert (0 <= Py.len section) by (unfold Py.len; lia).
  destruct Hin as [Hin|Hin]; [specialize (R Hin)|specialize (IH Hin)]; lia.
Qed.

Lemma draw_errlist_rows (lshift : Z) (es : list Py.str) :
  forall linenum,
    linenum <= snd (draw_errlist lshift es linenum)
    /\ forall y x t a,
         In (insstr y x t a) (fst (draw_errlist lshift es linenum)) ->
         linenum <= y < snd (draw_errlist lshift es linenum).
Proof.
  induction es as [|e rest IH]; intros linenum.
  - cbn. split; [lia | contradiction].
  - cbn [draw_errlist]. destruct e as [|c e'].
    + apply IH.
    + destruct (IH (linenum + 1)) as [M R].
      destruct (draw_errlist lshift rest (linenum + 1)) as [cs ln].
      cbn [fst snd] in *. split; [lia|].
      intros y x t a [E|Hin]; [inversion E; lia|].
      specialize (R y x t a Hin). lia.
Qed.

Lemma draw_err_rows (choices : list Py.str) (err0 : option errarg)
    (H lshift linenum : Z) (s : state) :
  linenum <= snd (fst (draw_err err0 choices H lshift linenum s))
  /\ forall y x t a,
       In (insstr y x t a)
          (fst (fst (draw_err err0 choices H lshift linenum s))) ->
       linenum <= y < snd (fst (draw_err err0 choices H lshift linenum s)).
Proof.
  unfold draw_err. destruct (truthy (err s)); [|cbn; split; [lia|tauto]].
  assert (X : forall (cs : list call) (ln : Z),
             linenum <= ln + 1 ->
             (forall y x t a, In (insstr y x t a) cs ->
                              linenum <= y < ln + 2) ->
             let r := let '(cs, ln) := (cs, ln) in
                      match errorcounter s with
                      | Some c =>
                          (cs, ln + 2,
                           mkstate (err s) (Some (c - 1)) (topline s)
                                   (hpos s))
                      | None =>
                          (cs, ln + 2,
                           mkstate (err s) (Some 5)
                             (if H - (ln + 2) <? Py.len choices
                              then
                                if topline s + (errorlen err0 + 1) >? hpos s
                                then hpos s
                                else topline s + (errorlen err0 + 1)
                              else topline s) (hpos s))
                      end in
             linenum <= snd (fst r)
             /\ forall y x t a, In (insstr y x t a) (fst (fst r)) ->
                                linenum <= y < snd (fst r)).
  { intros cs ln Hln Hrows. cbv zeta.
    destruct (errorcounter s); cbn [fst snd]; (split; [lia|exact Hrows]). }
  destruct (err s) as [[e|l]|].
  - apply X; [lia|]. intros y x t a [E|[]]. inversion E; lia.
  - destruct (draw_errlist_rows lshift l linenum) as [M R].
    destruct (draw_errlist lshift l linenum) as [cs ln]. cbn [fst snd] in *.
    apply X; [lia|]. intros y x t a Hin. specialize (R y x t a Hin). lia.
  - apply X; [lia|]. intros y x t a [].
Qed.

Lemma draw_choices_rows (H ls tl hp : Z) : forall rest i ln y x t a,
  ln <= H ->
  In (insstr y x t a) (draw_choices H ls tl hp i rest ln) ->
  ln <= y < H
  /\ exists k,
       i <= k /\ tl <= k
       /\ nth_error rest (Z.to_nat (k - i)) = Some t
       /\ y = ln + (k - Z.max i tl)
       /\ x = 4 + ls
       /\ a = (if k =? hp then activecolor else itemcolor).
Proof.
  induction rest as [|line rest IH]; intros i ln y x t a Hln Hin;
    [contradiction|].
  cbn [draw_choices] in Hin.
  destruct (Z.eqb_spec ln H); [contradiction|].
  rewrite Z.geb_leb in Hin. destruct (Z.leb_spec tl i).
  - destruct Hin as [E|Hin].
    + inversion E; subst. split; [lia|]. exists i.
      rewrite Z.sub_diag. repeat split; try lia; try reflexivity.
    + destruct (IH (i + 1) (ln + 1) y x t a ltac:(lia) Hin)
        as [Hy (k & K1 & K2 & K3 & K4 & K5 & K6)].
      split; [lia|]. exists k. repeat split; try lia; try assumption.
      replace (Z.to_nat (k - i)) with (S (Z.to_nat (k - (i + 1)))) by lia.
      exact K3.
  - destruct (IH (i + 1) ln y x t a Hln Hin)
      as [Hy (k & K1 & K2 & K3 & K4 & K5 & K6)].
    split; [lia|]. exists k. repeat split; try lia; try assumption.
    replace (Z.to_nat (k - i)) with (S (Z.to_nat (k - (i + 1)))) by lia.
    exact K3.
Qed.

Variables (title : Py.str) (body : list (list Py.str))
          (err0 : option errarg) (choices : list Py.str) (curs : Z).

(** The writes of a frame, by region. *)
Lemma frame_writes (H W : Z) (s s' : state) (top y x : Z) (t : Py.str)
    (a : attr) :
  snd (frame title body err0 choices curs H W s) = Some (s', top) ->
  top <= H ->
  In (insstr y x t a) (fst (frame title body err0 choices curs H W s)) ->
  2 <= top
  /\ (0 <= y < top
      \/ (top <= y < H
          /\ exists k,
               0 <= k /\ topline s' <= k
               /\ nth_error choices (Z.to_nat k) = Some t
               /\ y = top + (k - Z.max 0 (topline s'))
               /\ x = 4 + lshift_of title body err0 choices W
               /\ a = (if k =? hpos s' then activecolor else itemcolor))).
Proof.
  unfold frame.
  pose proof (draw_body_rows (lshift_of title body err0 choices W) body 1)
    as RB.
  pose proof (draw_body_snd (lshift_of title body err0 choices W) body 1)
    as [_ MB].
  destruct (draw_body _ body 1) as [cbody linenum]. cbn [fst snd] in RB, MB.
  pose proof (draw_err_rows choices err0 H
                (lshift_of title body err0 choices W) (linenum + 1)
                (expire err0 s)) as [ME RE].
  destruct (draw_err _ _ _ _ _ _) as [[cerr top1] s1]. cbn [fst snd] in ME, RE.
  pose proof (draw_choices_rows H (lshift_of title body err0 choices W)
                (topline s1) (hpos s1) choices 0 top1) as RC.
  assert (Hd : forall cs,
             cs = [erase;
                   insstr 0 (0 + lshift_of title body err0 choices W) title
                          titlecolor]
                  ++ cbody ++ cerr
                  ++ draw_choices H (lshift_of title body err0 choices W)
                       (topline s1) (hpos s1) 0 choices top1 ->
             top1 <= H -> In (insstr y x t a) cs ->
             2 <= top1
             /\ (0 <= y < top1
                 \/ (top1 <= y < H
                     /\ exists k,
                          0 <= k /\ topline s1 <= k
                          /\ nth_error choices (Z.to_nat k) = Some t
                          /\ y = top1 + (k - Z.max 0 (topline s1))
                          /\ x = 4 + lshift_of title body err0 choices W
                          /\ a = (if k =? hpos s1 then activecolor
                                  else itemcolor)))).
  { intros cs -> Htop Hin. split; [lia|].
    destruct Hin as [E|[E|Hin]]; [discriminate | inversion E; left; lia |].
    cbn [app] in Hin. apply in_app_or in Hin. destruct Hin as [Hin|Hin].
    { specialize (RB y x t a Hin). left; lia. }
    apply in_app_or in Hin. destruct Hin as [Hin|Hin].
    { specialize (RE y x t a Hin). left; lia. }
    destruct (RC y x t a Htop Hin)
      as [Hy (k & K1 & K2 & K3 & K4 & K5 & K6)].
    right. split; [exact Hy|]. exists k. rewrite Z.sub_0_r in K3.
    repeat split; try lia; assumption. }
  destruct (draw_cursor _ _ _ _ _ _) as [cc|] eqn:Hcur; cbn [fst snd];
    [|discriminate].
  intros X Htop Hin. inversion X; subst.
  apply in_app_or in Hin. destruct Hin as [Hin|Hin];
    [apply (Hd _ eq_refl Htop Hin)|].
  exfalso. apply in_app_or in Hin. destruct Hin as [Hin|[E|[]]];
    [|discriminate].
  unfold draw_cursor in Hcur.
  destruct (negb (curs =? 0)); [|inversion Hcur; subst; contradiction].
  destruct (Py.index choices (hpos s')); [|discriminate].
  destruct (_ <? _) in Hcur; inversion Hcur; subst.
  - destruct Hin as [E|[E|[]]]; discriminate.
  - contradiction.
Qed.
End MenuRows.

(** X7.  When the window is at least as high as the row of the first
    choice, a frame of the menu writes on rows [0 .. height-1] only: the
    title, the body and the error stay above the choices, and the loop
    over the choices stops at the last row. *)
Theorem frame_writes_inside_window :
  forall title body err0 choices curs H W s s' top y x t a,
    snd (Menu.frame title body err0 choices curs H W s) = Some (s', top) ->
    top <= H ->
    In (insstr y x t a) (fst (Menu.frame title body err0 choices curs H W s))
    -> 0 <= y < H.
Proof.
  intros title body err0 choices curs H W s s' top y x t a Hf Htop Hin.
  destruct (frame_writes title body err0 choices curs H W s s' top y x t a
              Hf Htop Hin) as [H2 [Hy|[Hy _]]]; lia.
Qed.

Lemma frame_writes_inside_window_witness :
  In (insstr 4 43 [50%N] Menu.itemcolor)
     (fst (Menu.frame [] [] None Menu.ten_choices 0 5 80
             (Menu.mkstate None None 0 0)))
  /\ 0 <= 4 < 5.
Proof.
  assert (Hin : In (insstr 4 43 [50%N] Menu.itemcolor)
                   (fst (Menu.frame [] [] None Menu.ten_choices 0 5 80
                           (Menu.mkstate None None 0 0))))
    by (vm_compute; right; right; right; right; left; reflexivity).
  split; [exact Hin|].
  exact (frame_writes_inside_window [] [] None Menu.ten_choices 0 5 80
           (Menu.mkstate None None 0 0) (Menu.mkstate None None 0 0) 2
           4 43 [50%N] Menu.itemcolor eq_refl ltac:(lia) Hin).
Defined.

(** X8.  In such a frame, with [topline >= 0], every write at or below the
    row of the first choice is a choice: the write on row [y] is the choice
    of index [k = topline + (y - top)], indented like the body, in the
    active colour when [k] is [hpos] and in the item colour otherwise. *)
Theorem frame_choice_rows :
  forall title body err0 choices curs H W s s' top y x t a,
    snd (Menu.frame title body err0 choices curs H W s) = Some (s', top) ->
    top <= H -> 0 <= Menu.topline s' -> top <= y ->
    In (insstr y x t a) (fst (Menu.frame title body err0 choices curs H W s))
    -> let k := Menu.topline s' + (y - top) in
       y < H
       /\ nth_error choices (Z.to_nat k) = Some t
       /\ x = 4 + Menu.lshift_of title body err0 choices W
       /\ a = (if k =? Menu.hpos s' then Menu.activecolor
               else Menu.itemcolor).
Proof.
  intros title body err0 choices curs H W s s' top y x t a Hf Htop Ht Hy Hin.
  cbv zeta.
  destruct (frame_writes title body err0 choices curs H W s s' top y x t a
              Hf Htop Hin)
    as [H2 [Hlt|[Hrow (k & K1 & K2 & K3 & K4 & K5 & K6)]]]; [lia|].
  replace (Menu.topline s' + (y - top)) with k by lia.
  repeat split; try lia; assumption.
Qed.

Lemma frame_choice_rows_witness :
  nth_error Menu.ten_choices (Z.to_nat (4 + (3 - 2))) = Some [53%N]
  /\ Menu.itemcolor
     = (if 4 + (3 - 2) =? 6 then Menu.activecolor else Menu.itemcolor).
Proof.
  assert (Hin : In (insstr 3 43 [53%N] Menu.itemcolor)
                   (fst (Menu.frame [] [] None Menu.ten_choices 0 5 80
                           (Menu.mkstate None None 4 6))))
    by (vm_compute; right; right; right; left; reflexivity).
  pose proof (frame_choice_rows [] [] None Menu.ten_choices 0 5 80
                (Menu.mkstate None None 4 6) (Menu.mkstate None None 4 6) 2
                3 43 [53%N] Menu.itemcolor eq_refl ltac:(lia)
                ltac:(cbn; lia) ltac:(lia) Hin) as (_ & K1 & _ & K2).
  exact (conj K1 K2).
Defined.

(** ** Centring *)

Lemma maxlen_bound (lines : list Py.str) : forall m,
  m <= Menu.maxlen lines m
  /\ forall line, In line lines -> Py.len line <= Menu.maxlen lines m.
Proof.
  unfold Menu.maxlen.
  induction lines as [|l rest IH]; intros m; cbn [fold_left].
  - split; [lia | contradiction].
  - destruct (IH (Z.max (Py.len l) m)) as [M R]. split; [lia|].
    intros line [<-|Hin]; [lia | apply R; exact Hin].
Qed.

Lemma body_maxlen_bound (body : list (list Py.str)) : forall m,
  m <= fold_left (fun m section => Menu.maxlen section m) body m
  /\ forall section line,
       In section body -> In line section ->
       Py.len line
       <= fold_left (fun m section => Menu.maxlen section m) body m.
Proof.
  induction body as [|sec rest IH]; intros m; cbn [fold_left].
  - split; [lia | contradiction].
  - destruct (IH (Menu.maxlen sec m)) as [M R].
    destruct (maxlen_bound sec m) as [M' R']. split; [lia|].
    intros section line [<-|Hs] Hl.
    + specialize (R' line Hl). lia.
    + apply (R section line Hs Hl).
Qed.

(** ** The diff session over whole runs *)

Section DiffRun.
Import Diff.
Variables (lhs rhs : list Py.str) (lwidth rwidth : Z).

Ltac key_cases :=
  repeat match goal with
    | |- context [if ?c then _ else _] => destruct c eqn:?
    end.

Lemma on_key_cols (ch : Z) (s : state) :
  0 <= snd (lpos s) -> 0 <= snd (rpos s) ->
  0 <= snd (lpos (fst (on_key lhs rhs lwidth rwidth ch s)))
  /\ 0 <= snd (rpos (fst (on_key lhs rhs lwidth rwidth ch s))).
Proof.
  destruct s as [[lrow lcol] [rrow rcol] h w single left hl shmt].
  cbn [lpos rpos fst snd]. intros Hl Hr. unfold on_key.
  cbn [lpos rpos lastheight lastwidth paneshmt].
  rewrite ?Z.gtb_ltb. key_cases; cbn; bool_props; lia.
Qed.

Lemma on_key_rows (ch : Z) (s : state) :
  ch <> KEY_UP -> 4 <= lastheight s ->
  -1 <= fst (lpos s) -> -1 <= fst (rpos s) ->
  -1 <= fst (lpos (fst (on_key lhs rhs lwidth rwidth ch s)))
  /\ -1 <= fst (rpos (fst (on_key lhs rhs lwidth rwidth ch s)))
  /\ lastheight (fst (on_key lhs rhs lwidth rwidth ch s)) = lastheight s.
Proof.
  destruct s as [[lrow lcol] [rrow rcol] h w single left hl shmt].
  cbn [lpos rpos fst snd lastheight]. intros Hup Hh Hl Hr. unfold on_key.
  cbn [lpos rpos lastheight lastwidth paneshmt].
  rewrite ?Z.gtb_ltb. key_cases; cbn; bool_props; try lia.
Qed.

Lemma pass_fields (height width ch : Z) (s : state) :
  let s' := snd (pass lhs rhs lwidth rwidth height width ch s) in
  let k := fst (on_key lhs rhs lwidth rwidth ch s) in
  lpos s' = lpos k /\ rpos s' = rpos k
  /\ (lastheight s' = lastheight k \/ lastheight s' = height).
Proof.
  cbv zeta. unfold pass.
  destruct (on_key lhs rhs lwidth rwidth ch s) as [k [|]]; cbn [fst snd];
    [|tauto].
  unfold SplitPane.drawsplitpane.
  destruct (SplitPane.layout _ _ _ _) as [[? ?] ?]. cbn. tauto.
Qed.

Lemma loop_cols (inputs : list input) : forall ch s,
  0 <= snd (lpos s) -> 0 <= snd (rpos s) ->
  match snd (loop lhs rhs lwidth rwidth ch inputs s) with
  | Exited s' | Blocked _ s' => 0 <= snd (lpos s') /\ 0 <= snd (rpos s')
  end.
Proof.
  induction inputs as [|i rest IH]; intros ch s Hl Hr.
  - cbn [loop]. destruct (is_quit ch); cbn; tauto.
  - cbn [loop]. destruct (is_quit ch); [cbn; tauto|].
    destruct (pass_fields (in_height i) (in_width i) ch s) as (E1 & E2 & _).
    destruct (on_key_cols ch s Hl Hr) as [K1 K2].
    destruct (pass lhs rhs lwidth rwidth (in_height i) (in_width i) ch s)
      as [cs s1]. cbn [snd] in E1, E2.
    specialize (IH (in_key i) s1 ltac:(rewrite E1; exact K1)
                   ltac:(rewrite E2; exact K2)).
    destruct (loop lhs rhs lwidth rwidth (in_key i) rest s1) as [cs' r].
    exact IH.
Qed.

Lemma loop_rows (inputs : list input) : forall ch s,
  ch <> KEY_UP ->
  Forall (fun i => in_key i <> KEY_UP /\ 4 <= in_height i) inputs ->
  4 <= lastheight s -> -1 <= fst (lpos s) -> -1 <= fst (rpos s) ->
  match snd (loop lhs rhs lwidth rwidth ch inputs s) with
  | Exited s' | Blocked _ s' => -1 <= fst (lpos s') /\ -1 <= fst (rpos s')
  end.
Proof.
  induction inputs as [|i rest IH]; intros ch s Hch Hall Hh Hl Hr.
  - cbn [loop]. destruct (is_quit ch); cbn; tauto.
  - cbn [loop]. destruct (is_quit ch); [cbn; tauto|].
    inversion Hall as [|? ? [Hi1 Hi2] Hall']; subst.
    destruct (pass_fields (in_height i) (in_width i) ch s)
      as (E1 & E2 & E3).
    destruct (on_key_rows ch s Hch Hh Hl Hr) as (K1 & K2 & K3).
    destruct (pass lhs rhs lwidth rwidth (in_height i) (in_width i) ch s)
      as [cs s1]. cbn [snd] in E1, E2, E3.
    specialize (IH (in_key i) s1 Hi1 Hall'
                   ltac:(destruct E3 as [->| ->]; lia)
                   ltac:(rewrite E1; exact K1) ltac:(rewrite E2; exact K2)).
    destruct (loop lhs rhs lwidth rwidth (in_key i) rest s1) as [cs' r].
    exact IH.
Qed.
End DiffRun.

(** X10.  Whatever the buffers, the window sizes and the keys, the column
    offsets of both panes are never negative in the state [showdiff] ends
    in or waits in. *)
Theorem diff_columns_never_negative :
  forall lhs rhs height width inputs,
    match snd (Diff.showdiff lhs rhs height width inputs) with
    | Diff.Exited s | Diff.Blocked _ s =>
        0 <= snd (Diff.lpos s) /\ 0 <= snd (Diff.rpos s)
    end.
Proof.
  intros lhs rhs height width inputs. unfold Diff.showdiff.
  apply loop_cols; cbn; lia.
Qed.

(** X11.  As long as the Up key is not pressed and the window is at least
    4 rows high, the row offsets of both panes stay at or above -1 over a
    whole run of [showdiff]. *)
Theorem diff_rows_bounded_without_up :
  forall lhs rhs height width inputs,
    4 <= height ->
    Forall (fun i => Diff.in_key i <> KEY_UP /\ 4 <= Diff.in_height i)
           inputs ->
    match snd (Diff.showdiff lhs rhs height width inputs) with
    | Diff.Exited s | Diff.Blocked _ s =>
        -1 <= fst (Diff.lpos s) /\ -1 <= fst (Diff.rpos s)
    end.
Proof.
  intros lhs rhs height width inputs Hh Hall. unfold Diff.showdiff.
  apply loop_rows; cbn; try lia; [discriminate | exact Hall].
Qed.

Lemma diff_rows_bounded_without_up_witness :
  match snd (Diff.showdiff [Py.of_string "a"] [Py.of_string "b"] 24 80
               [Diff.mkinput 24 80 KEY_PPAGE; Diff.mkinput 5 80 KEY_NPAGE;
                Diff.mkinput 24 80 27]) with
  | Diff.Exited s | Diff.Blocked _ s =>
      -1 <= fst (Diff.lpos s) /\ -1 <= fst (Diff.rpos s)
  end.
Proof.
  apply (diff_rows_bounded_without_up [Py.of_string "a"] [Py.of_string "b"]
           24 80
           [Diff.mkinput 24 80 KEY_PPAGE; Diff.mkinput 5 80 KEY_NPAGE;
            Diff.mkinput 24 80 27]).
  - lia.
  - repeat constructor; cbn; try discriminate; lia.
Defined.

(** X12.  At a window width of at least 4 columns, no key moves the
    boundary [lastwidth//2 + paneshmt] out of the columns [2 .. width-2]:
    the plus and minus keys stop there and the equal key puts it back in
    the middle. *)
Theorem boundary_stays_inside :
  forall lhs rhs lwidth rwidth ch s,
    4 <= Diff.lastwidth s ->
    2 <= Diff.lastwidth s / 2 + Diff.paneshmt s <= Diff.lastwidth s - 2 ->
    let s' := fst (Diff.on_key lhs rhs lwidth rwidth ch s) in
    Diff.lastwidth s' = Diff.lastwidth s
    /\ 2 <= Diff.lastwidth s' / 2 + Diff.paneshmt s'
       <= Diff.lastwidth s' - 2.
Proof.
  intros lhs rhs lwidth rwidth ch
         [[lrow lcol] [rrow rcol] h w single left hl shmt].
  cbn [Diff.lastwidth Diff.paneshmt]. intros Hw Hm. cbv zeta.
  generalize (Z.div_mod w 2) (Z.mod_pos_bound w 2). intros Hd Hb.
  unfold Diff.on_key.
  cbn [Diff.lpos Diff.rpos Diff.lastheight Diff.lastwidth Diff.paneshmt].
  rewrite ?Z.gtb_ltb.
  repeat match goal with
    | |- context [if ?c then _ else _] => destruct c eqn:?
    end; cbn; bool_props; lia.
Qed.

Lemma boundary_stays_inside_witness :
  2 <= 80 / 2
       + Diff.paneshmt
           (fst (Diff.on_key [] [] 0 0 43
                   (Diff.mkstate (0, 0) (0, 0) 24 80 false true true 38)))
    <= 80 - 2.
Proof.
  exact (proj2 (boundary_stays_inside [] [] 0 0 43
                  (Diff.mkstate (0, 0) (0, 0) 24 80 false true true 38)
                  ltac:(cbn; lia) ltac:(vm_compute; split; discriminate))).
Defined.

(** X13.  The three toggles undo themselves: pressing space twice, tab
    twice, or any two of the highlight keys [d], [D], [h], [H] gives back
    the state as it was. *)
Theorem toggles_undo_themselves :
  forall lhs rhs lwidth rwidth s,
    let key ch t := fst (Diff.on_key lhs rhs lwidth rwidth ch t) in
    key 32 (key 32 s) = s
    /\ key 9 (key 9 s) = s
    /\ (forall a b,
          In a [68; 72; 100; 104] -> In b [68; 72; 100; 104] ->
          key b (key a s) = s).
Proof.
  intros lhs rhs lwidth rwidth
         [[lrow lcol] [rrow rcol] h w single left hl shmt]. cbv zeta.
  repeat split.
  - cbn. rewrite negb_involutive. reflexivity.
  - cbn. rewrite negb_involutive. reflexivity.
  - intros a b Ha Hb.
    assert (Hk : forall c t, In c [68; 72; 100; 104] ->
                 fst (Diff.on_key lhs rhs lwidth rwidth c t)
                 = Diff.mkstate (Diff.lpos t) (Diff.rpos t)
                     (Diff.lastheight t) (Diff.lastwidth t)
                     (Diff.singlescroll t) (Diff.leftscroll t)
                     (negb (Diff.highlight t)) (Diff.paneshmt t)).
    { intros c [[l1 l2] [r1 r2] ? ? ? ? ? ?] Hc.
      cbn in Hc. destruct Hc as [<-|[<-|[<-|[<-|[]]]]]; reflexivity. }
    rewrite (Hk b _ Hb), (Hk a _ Ha). cbn.
    rewrite negb_involutive. reflexivity.
Qed.

Lemma toggles_undo_themselves_witness :
  fst (Diff.on_key [] [] 0 0 72
         (fst (Diff.on_key [] [] 0 0 100 (Diff.initial 24 80))))
  = Diff.initial 24 80.
Proof.
  exact (proj2 (proj2 (toggles_undo_themselves [] [] 0 0
                         (Diff.initial 24 80)))
               100 72 ltac:(cbn; tauto) ltac:(cbn; tauto)).
Defined.

Lemma pass_calls (lhs rhs : list Py.str) (lwidth rwidth height width ch : Z)
    (s : Diff.state) :
  snd (Diff.on_key lhs rhs lwidth rwidth ch s) = true ->
  let k := fst (Diff.on_key lhs rhs lwidth rwidth ch s) in
  fst (Diff.pass lhs rhs lwidth rwidth height width ch s)
  = fst (SplitPane.drawsplitpane height width lhs (Diff.lpos k) rhs
           (Diff.rpos k) (Diff.highlight k) (Diff.paneshmt k) 2).
Proof.
  cbv zeta. unfold Diff.pass.
  destruct (Diff.on_key lhs rhs lwidth rwidth ch s) as [k repaint].
  cbn [fst snd]. intros ->. unfold SplitPane.drawsplitpane.
  destruct (SplitPane.layout _ _ _ _) as [[? ?] ?]. reflexivity.
Qed.

Lemma on_key_end (lhs rhs : list Py.str) (lwidth rwidth : Z)
    (s : Diff.state) :
  Diff.on_key lhs rhs lwidth rwidth KEY_END s
  = (Diff.with_pos s
       (if Diff.scroll_left s && (Diff.lastheight s <? Py.len lhs)
        then (Py.len lhs - Diff.lastheight s + 1, snd (Diff.lpos s))
        else Diff.lpos s)
       (if Diff.scroll_right s && (Diff.lastheight s <? Py.len rhs)
        then (Py.len rhs - Diff.lastheight s + 1, snd (Diff.rpos s))
        else Diff.rpos s),
     true).
Proof.
  destruct s as [[lrow lcol] [rrow rcol] h w single left hl shmt].
  reflexivity.
Qed.

(** ** Trimming, and the preprocessing of the two buffers *)

Lemma lstrip_spaces (s : Py.str) :
  forallb Py.isspace (Py.lstrip s) = forallb Py.isspace s
  /\ (Py.lstrip s = [] <-> forallb Py.isspace s = true).
Proof.
  induction s as [|c t [IH1 IH2]]; cbn [Py.lstrip forallb];
    [split; [reflexivity | tauto]|].
  destruct (Py.isspace c) eqn:Hc; cbn [andb].
  - split; assumption.
  - cbn [forallb]. rewrite Hc. split; [reflexivity|].
    split; discriminate.
Qed.

Lemma lstrip_fixed (c : N) (t : Py.str) :
  Py.isspace c = false -> Py.lstrip (c :: t) = c :: t.
Proof. intros Hc. cbn [Py.lstrip]. rewrite Hc. reflexivity. Qed.

Lemma lstrip_shape (s : Py.str) :
  Py.lstrip s = []
  \/ exists c t, Py.lstrip s = c :: t /\ Py.isspace c = false.
Proof.
  induction s as [|c t IH]; [left; reflexivity|]. cbn [Py.lstrip].
  destruct (Py.isspace c) eqn:Hc; [exact IH | right; eauto].
Qed.

Lemma forallb_rev (f : N -> bool) (l : list N) :
  forallb f (rev l) = forallb f l.
Proof.
  induction l as [|x l IH]; [reflexivity|]. cbn [rev forallb].
  rewrite forallb_app, IH. cbn. rewrite andb_true_r. apply andb_comm.
Qed.

Lemma rstrip_shape (s : Py.str) :
  (Py.rstrip s = [] /\ forallb Py.isspace s = true)
  \/ exists u c, Py.rstrip s = u ++ [c] /\ Py.isspace c = false
                 /\ forallb Py.isspace s = false.
Proof.
  unfold Py.rstrip.
  destruct (lstrip_spaces (rev s)) as [E1 E2]. rewrite forallb_rev in *.
  destruct (lstrip_shape (rev s)) as [E|(c & t & E & Hc)].
  - left. rewrite E. split; [reflexivity | apply E2; exact E].
  - right. exists (rev t), c. rewrite E. cbn [rev].
    repeat split; [exact Hc|].
    rewrite <- E1, E. cbn [forallb]. rewrite Hc. reflexivity.
Qed.

Lemma rstrip_fixed (u : Py.str) (c : N) :
  Py.isspace c = false -> Py.rstrip (u ++ [c]) = u ++ [c].
Proof.
  intros Hc. unfold Py.rstrip. rewrite rev_app_distr. cbn [rev app].
  rewrite lstrip_fixed by exact Hc. cbn [rev]. rewrite rev_involutive.
  reflexivity.
Qed.

Lemma strip_blank (s : Py.str) :
  Py.strip s = [] <-> forallb Py.isspace s = true.
Proof.
  unfold Py.strip. destruct (lstrip_spaces s) as [E1 _].
  destruct (rstrip_shape (Py.lstrip s)) as [[E H]|(u & c & E & Hc & H)];
    rewrite E, <- E1, H.
  - tauto.
  - split; [destruct u; discriminate | discriminate].
Qed.

Lemma str_eqb_nil (s : Py.str) : Py.str_eqb s [] = true <-> s = [].
Proof. apply str_eqb_eq. Qed.

(** A line as [preprocess] leaves it: not empty, free of tabs, and with a
    last character that is not white space. *)
Lemma preprocessed_line (line : Py.str) :
  Py.strip line <> [] ->
  exists u c,
    Diff.expand_tabs (Py.rstrip line) = u ++ [c]
    /\ Py.isspace c = false /\ ~ In 9%N (u ++ [c]).
Proof.
  intros Hs.
  destruct (rstrip_shape line) as [[_ H]|(u & c & E & Hc & _)];
    [elim Hs; apply strip_blank; exact H|].
  exists (Diff.expand_tabs u), c. rewrite E. unfold Diff.expand_tabs.
  rewrite flat_map_app. cbn [flat_map].
  assert (Hc9 : (c =? 9)%N = false).
  { destruct (N.eqb_spec c 9) as [->|]; [discriminate Hc | reflexivity]. }
  rewrite Hc9, app_nil_r. repeat split; [exact Hc|].
  intros Hin. apply in_app_or in Hin. destruct Hin as [Hin|[He|[]]].
  - apply in_flat_map in Hin. destruct Hin as (x & _ & Hx).
    destruct (x =? 9)%N eqn:Ex.
    + destruct Hx as [E9|[E9|[]]]; discriminate.
    + destruct Hx as [E9|[]]. subst x. discriminate.
  - subst c. discriminate.
Qed.

Lemma clean_line_fixed (u : Py.str) (c : N) :
  Py.isspace c = false -> ~ In 9%N (u ++ [c]) ->
  Py.str_eqb (Py.strip (u ++ [c])) [] = false
  /\ Diff.expand_tabs (Py.rstrip (u ++ [c])) = u ++ [c].
Proof.
  intros Hc Ht. split.
  - destruct (Py.str_eqb (Py.strip (u ++ [c])) []) eqn:E; [|reflexivity].
    apply str_eqb_nil, strip_blank in E. rewrite forallb_app in E.
    cbn in E. rewrite Hc, andb_false_r in E. discriminate.
  - rewrite rstrip_fixed by exact Hc. unfold Diff.expand_tabs.
    induction (u ++ [c]) as [|x l IH]; [reflexivity|].
    cbn [flat_map]. destruct (N.eqb_spec x 9) as [->|_].
    + elim Ht. left. reflexivity.
    + cbn [app]. f_equal. apply IH. intros Hin. apply Ht. right. exact Hin.
Qed.

(** X15.  The lines [showdiff] keeps are never empty, contain no tab and
    do not end in white space; there are no more of them than lines
    given, and a buffer of blank lines only is left with none. *)
Theorem preprocess_lines :
  forall buf,
    (forall line, In line (Diff.preprocess buf) ->
       line <> [] /\ ~ In 9%N line /\ Py.rstrip line = line)
    /\ (List.length (Diff.preprocess buf) <= List.length buf)%nat
    /\ (Forall (fun line => forallb Py.isspace line = true) buf ->
        Diff.preprocess buf = []).
Proof.
  intros buf. unfold Diff.preprocess. repeat split.
  - apply in_map_iff in H. destruct H as (l & <- & Hl).
    apply filter_In in Hl. destruct Hl as [_ Hl].
    destruct (preprocessed_line l) as (u & c & E & _).
    { intros E. apply str_eqb_nil in E. rewrite E in Hl. discriminate. }
    rewrite E. destruct u; discriminate.
  - apply in_map_iff in H. destruct H as (l & <- & Hl).
    apply filter_In in Hl. destruct Hl as [_ Hl].
    destruct (preprocessed_line l) as (u & c & E & _ & Ht).
    { intros E. apply str_eqb_nil in E. rewrite E in Hl. discriminate. }
    rewrite E. exact Ht.
  - apply in_map_iff in H. destruct H as (l & <- & Hl).
    apply filter_In in Hl. destruct Hl as [_ Hl].
    destruct (preprocessed_line l) as (u & c & E & Hc & _).
    { intros E. apply str_eqb_nil in E. rewrite E in Hl. discriminate. }
    rewrite E. apply rstrip_fixed. exact Hc.
  - rewrite length_map. apply filter_length_le.
  - intros Hall. induction Hall as [|l rest Hl _ IH]; [reflexivity|].
    cbn [filter]. apply strip_blank in Hl. rewrite Hl. cbn. exact IH.
Qed.

Lemma preprocess_lines_witness :
  Diff.preprocess [[32%N]; [9%N; 32%N]] = [].
Proof.
  exact (proj2 (proj2 (preprocess_lines [[32%N]; [9%N; 32%N]]))
               ltac:(repeat constructor)).
Defined.

(** X16.  Preprocessing is idempotent: lines that went through it once
    come out of a second pass unchanged. *)
Theorem preprocess_idempotent :
  forall buf, Diff.preprocess (Diff.preprocess buf) = Diff.preprocess buf.
Proof.
  intros buf.
  assert (Hfix : forall l,
             Forall (fun line => exists u c, line = u ++ [c]
                                  /\ Py.isspace c = false
                                  /\ ~ In 9%N (u ++ [c])) l ->
             Diff.preprocess l = l).
  { intros l Hl. unfold Diff.preprocess.
    induction Hl as [|line rest (u & c & -> & Hc & Ht) _ IH];
      [reflexivity|].
    destruct (clean_line_fixed u c Hc Ht) as [E1 E2].
    cbn [filter]. rewrite E1. cbn [negb map]. rewrite E2, IH. reflexivity. }
  apply Hfix. apply Forall_forall. intros line Hin.
  unfold Diff.preprocess in Hin.
  apply in_map_iff in Hin. destruct Hin as (l & <- & Hl).
  apply filter_In in Hl. destruct Hl as [_ Hl].
  apply preprocessed_line.
  intros E. apply str_eqb_nil in E. rewrite E in Hl. discriminate.
Qed.

(** ** The terminal life cycle *)

Lemma alternates_app (tr1 tr2 : list Window.tcall) : forall a,
  Window.alternates a (tr1 ++ tr2)
  = match Window.alternates a tr1 with
    | Some b => Window.alternates b tr2
    | None => None
    end.
Proof.
  induction tr1 as [|c tr1 IH]; intros a; [reflexivity|].
  destruct c; cbn [app Window.alternates]; try apply IH;
    destruct a; try reflexivity; apply IH.
Qed.

Lemma step_alternates (p : Window.op) (o : Window.obj) :
  Window.alternates (Window.active o) (fst (Window.step p o))
  = Some (Window.active (snd (Window.step p o))).
Proof.
  destruct o as [u [[|]|]]; destruct p; reflexivity.
Qed.

Lemma run_havescr (ops : list Window.op) : forall o,
  Window.havescr (snd (Window.run ops o)) = None
  <-> Window.havescr o = None
      /\ Forall (fun p => p <> Window.Enter /\ p <> Window.Initscr) ops.
Proof.
  induction ops as [|p rest IH]; intros o.
  - cbn. split; [intros E; split; [exact E | constructor] | tauto].
  - cbn [Window.run].
    destruct (Window.step p o) as [cs o1] eqn:Es.
    specialize (IH o1).
    destruct (Window.run rest o1) as [cs' o2]. cbn [snd] in *.
    rewrite IH. clear IH.
    assert (E1 : Window.havescr o1 = None
                 <-> Window.havescr o = None
                     /\ p <> Window.Enter /\ p <> Window.Initscr).
    { destruct o as [u [[|]|]]; destruct p; cbn in Es; inversion Es; cbn;
        (split; [try discriminate; intros _; repeat split; discriminate
                | intros (A & B & C); try discriminate; try reflexivity;
                  try (elim B; reflexivity); try (elim C; reflexivity)]). }
    rewrite E1. split.
    + intros ((A & B) & F). split; [exact A | constructor; assumption].
    + intros (A & F). inversion F; subst. tauto.
Qed.

(** X17.  Over any sequence of [__enter__], [__exit__], [initscr],
    [stopscr] and [__del__] on a new object, [curses.initscr()] and
    [curses.endwin()] alternate, starting with [initscr], and the terminal
    is left in curses mode exactly when [havescr] is true at the end; in
    particular a second [stopscr] in a row makes no call, and neither
    does a [stopscr] on a new object. *)
Theorem lifecycle_alternates :
  forall unsafe ops,
    Window.alternates false (fst (Window.run ops (Window.new unsafe)))
    = Some (Window.active (snd (Window.run ops (Window.new unsafe))))
    /\ (forall o, fst (Window.stopscr (snd (Window.stopscr o))) = [])
    /\ fst (Window.stopscr (Window.new unsafe)) = [].
Proof.
  intros unsafe ops. repeat split.
  - change false with (Window.active (Window.new unsafe)).
    generalize (Window.new unsafe). induction ops as [|p rest IH]; intros o;
      [reflexivity|].
    cbn [Window.run]. pose proof (step_alternates p o) as Hs.
    destruct (Window.step p o) as [cs o1]. specialize (IH o1).
    destruct (Window.run rest o1) as [cs' o2]. cbn [fst snd] in *.
    rewrite alternates_app, Hs. exact IH.
  - intros [u [[|]|]]; reflexivity.
Qed.

(** X18.  On an object created without [unsafe], the check at the start
    of [showdiff] and [mainmenu] raises its [AssertionError] exactly when
    neither [__enter__] nor [initscr] has been called before; calls of
    [stopscr], [__exit__] and [__del__] do not count. *)
Theorem confirm_usage_raises :
  forall ops,
    Window.confirm_usage (snd (Window.run ops (Window.new false))) = None
    <-> Forall (fun p => p <> Window.Enter /\ p <> Window.Initscr) ops.
Proof.
  intros ops. pose proof (run_havescr ops (Window.new false)) as R.
  assert (U : forall o ops', Window.unsafe (snd (Window.run ops' o))
                             = Window.unsafe o).
  { intros o ops'. revert o. induction ops' as [|p rest IH]; intros o;
      [reflexivity|].
    cbn [Window.run].
    assert (E : Window.unsafe (snd (Window.step p o)) = Window.unsafe o)
      by (destruct o as [u [[|]|]]; destruct p; reflexivity).
    destruct (Window.step p o) as [cs o1]. specialize (IH o1).
    destruct (Window.run rest o1) as [cs' o2]. cbn [snd] in *. congruence. }
  specialize (U (Window.new false) ops).
  unfold Window.confirm_usage.
  destruct (snd (Window.run ops (Window.new false))) as [u [[|]|]];
    cbn [Window.havescr Window.unsafe] in *.
  - split; [discriminate|]. intros F.
    discriminate (proj2 R (conj eq_refl F)).
  - split; [discriminate|]. intros F.
    discriminate (proj2 R (conj eq_refl F)).
  - subst u. split; [intros _; apply R; reflexivity | reflexivity].
Qed.

(** ** Splitting, joining and slicing *)

Lemma split_nonempty (sep : N) (s : Py.str) : PyStr.split sep s <> [].
Proof.
  destruct s as [|c t]; cbn [PyStr.split]; [discriminate|].
  destruct (c =? sep)%N; [discriminate|].
  destruct (PyStr.split sep t); discriminate.
Qed.

Lemma split_app (sep : N) (a b : Py.str) :
  PyStr.split sep (a ++ sep :: b) = PyStr.split sep a ++ PyStr.split sep b.
Proof.
  induction a as [|c a IH]; cbn [app PyStr.split].
  - rewrite N.eqb_refl. reflexivity.
  - destruct (c =? sep)%N; [rewrite IH; reflexivity|].
    rewrite IH. pose proof (split_nonempty sep a) as Hn.
    destruct (PyStr.split sep a); [contradiction | reflexivity].
Qed.

Lemma split_without_sep (sep : N) (s : Py.str) :
  ~ In sep s -> PyStr.split sep s = [s].
Proof.
  induction s as [|c t IH]; intros Hn; [reflexivity|].
  cbn [PyStr.split]. destruct (N.eqb_spec c sep) as [->|_].
  - elim Hn. left. reflexivity.
  - rewrite IH by (intros H; apply Hn; right; exact H). reflexivity.
Qed.

Lemma join_split (sep : N) (s : Py.str) :
  PyStr.join [sep] (PyStr.split sep s) = s.
Proof.
  induction s as [|c t IH]; [reflexivity|]. cbn [PyStr.split].
  pose proof (split_nonempty sep t) as Hn.
  destruct (N.eqb_spec c sep) as [->|_].
  - cbn [PyStr.join]. destruct (PyStr.split sep t); [contradiction|].
    rewrite IH. reflexivity.
  - destruct (PyStr.split sep t) as [|w ws]; [contradiction|].
    cbn [PyStr.join] in *. destruct ws; rewrite <- IH; reflexivity.
Qed.

Lemma slice_drop_last {A : Type} (l : list A) (x : A) :
  Py.slice (l ++ [x]) 0 (-1) = l.
Proof.
  unfold Py.slice, Py.slice_bound, Py.len. rewrite length_app.
  cbn [List.length]. cbn [Z.ltb Z.compare].
  replace (Z.to_nat (Z.max (-1 + Z.of_nat (List.length l + 1)) 0
                     - Z.min 0 (Z.of_nat (List.length l + 1))))
    with (List.length l) by lia.
  replace (Z.to_nat (Z.min 0 (Z.of_nat (List.length l + 1)))) with 0%nat
    by lia.
  cbn [skipn]. rewrite firstn_app, Nat.sub_diag, firstn_all. cbn.
  apply app_nil_r.
Qed.

Lemma slice_prefix {A : Type} (a b : list A) :
  Py.slice (a ++ b) 0 (Py.len a) = a.
Proof.
  unfold Py.slice, Py.slice_bound, Py.len. rewrite length_app.
  destruct (Z.ltb_spec (Z.of_nat (List.length a)) 0); [lia|].
  cbn [Z.ltb Z.compare].
  replace (Z.to_nat (Z.min (Z.of_nat (List.length a))
                       (Z.of_nat (List.length a + List.length b))
                     - Z.min 0 (Z.of_nat (List.length a + List.length b))))
    with (List.length a) by lia.
  replace (Z.to_nat (Z.min 0 (Z.of_nat (List.length a + List.length b))))
    with 0%nat by lia.
  cbn [skipn]. rewrite firstn_app, Nat.sub_diag, firstn_all. cbn.
  apply app_nil_r.
Qed.

Lemma slice_from_suffix {A : Type} (a b : list A) :
  PyStr.slice_from (a ++ b) (Py.len a) = b.
Proof.
  unfold PyStr.slice_from, Py.slice, Py.slice_bound, Py.len.
  rewrite length_app.
  destruct (Z.ltb_spec (Z.of_nat (List.length a)) 0); [lia|].
  destruct (Z.ltb_spec (Z.of_nat (List.length a + List.length b)) 0);
    [lia|].
  replace (Z.to_nat (Z.min (Z.of_nat (List.length a))
                       (Z.of_nat (List.length a + List.length b))))
    with (List.length a) by lia.
  replace (Z.to_nat (Z.min (Z.of_nat (List.length a + List.length b))
                       (Z.of_nat (List.length a + List.length b))
                     - Z.min (Z.of_nat (List.length a))
                         (Z.of_nat (List.length a + List.length b))))
    with (List.length b) by lia.
  rewrite skipn_app, Nat.sub_diag, skipn_all. cbn. apply firstn_all.
Qed.

(** ** The paths of the file menu *)

(** X19.  Entering a directory of the listing and then choosing ['../']
    leads back to the path the menu was on: for every non-empty path and
    every entry name without a slash, going up from the path of the entry
    gives the path again, the root included; going up from the root stays
    at the root. *)
Theorem up_after_entering :
  forall path name,
    path <> [] -> ~ In FileMenu.slash name ->
    FileMenu.up (FileMenu.testpath path (name ++ [FileMenu.slash])) = path
    /\ FileMenu.up [FileMenu.slash] = [FileMenu.slash].
Proof.
  intros path name Hp Hn. split; [|reflexivity].
  unfold FileMenu.testpath. rewrite slice_drop_last.
  destruct (Py.str_eqb path [FileMenu.slash]) eqn:E.
  - apply str_eqb_eq in E. subst path. unfold FileMenu.up.
    cbn [app PyStr.split]. rewrite N.eqb_refl.
    rewrite (split_without_sep _ name Hn).
    change [[]; name] with ([[]] ++ [name]).
    rewrite slice_drop_last. reflexivity.
  - unfold FileMenu.up. cbn [app]. rewrite split_app.
    rewrite (split_without_sep _ name Hn), slice_drop_last, join_split.
    destruct path; [contradiction | reflexivity].
Qed.

Lemma up_after_entering_witness :
  FileMenu.up (FileMenu.testpath (Py.of_string "/home/user")
                 (Py.of_string "src/"))
  = Py.of_string "/home/user".
Proof.
  exact (proj1 (up_after_entering (Py.of_string "/home/user")
                  (Py.of_string "src") ltac:(discriminate)
                  ltac:(vm_compute; intuition discriminate))).
Defined.

(** ** The comparison of actual and expected output *)

Lemma index_middle {A : Type} (pre post : list A) (x : A) :
  Py.index (pre ++ x :: post) (Py.len pre) = Some x.
Proof.
  unfold Py.index, Py.len. rewrite length_app. cbn [List.length].
  destruct (Z.ltb_spec (Z.of_nat (List.length pre)) 0); [lia|].
  destruct (Z.leb_spec 0 (Z.of_nat (List.length pre))); [|lia].
  destruct (Z.ltb_spec (Z.of_nat (List.length pre))
              (Z.of_nat (List.length pre + S (List.length post)))); [|lia].
  cbn [andb]. rewrite Nat2Z.id, nth_error_app2, Nat.sub_diag by lia.
  reflexivity.
Qed.

Lemma compare_from_spec (exp : list Py.str) : forall pre post,
  List.length post = List.length exp ->
  exists b,
    TestOutput.compare_from (pre ++ post) (Py.len pre) exp = Some b
    /\ (b = true <-> exp = post).
Proof.
  induction exp as [|line rest IH]; intros pre post Hlen.
  - destruct post; [|discriminate]. exists true. cbn. tauto.
  - destruct post as [|o post]; [discriminate|].
    cbn [TestOutput.compare_from]. rewrite index_middle.
    destruct (Py.str_eqb line o) eqn:E; cbn [negb].
    + apply str_eqb_eq in E. subst o.
      destruct (IH (pre ++ [line]) post ltac:(cbn in Hlen; lia))
        as (b & Hb & Hiff).
      exists b. rewrite <- app_assoc in Hb. cbn [app] in Hb.
      replace (Py.len pre + 1) with (Py.len (pre ++ [line]))
        by (unfold Py.len; rewrite length_app; cbn; lia).
      split; [exact Hb|]. rewrite Hiff.
      split; [intros ->; reflexivity | intros X; inversion X; reflexivity].
    + exists false. split; [reflexivity|].
      split; [discriminate|]. intros X; inversion X; subst.
      assert (Py.str_eqb o o = true) by (apply str_eqb_eq; reflexivity).
      congruence.
Qed.

Lemma matches_spec (out exp : list Py.str) :
  exists b,
    TestOutput.matches out exp = Some b /\ (b = true <-> out = exp).
Proof.
  unfold TestOutput.matches.
  destruct (Z.eqb_spec (Py.len out) (Py.len exp)) as [E|E].
  - destruct (compare_from_spec exp [] out
                ltac:(unfold Py.len in E; lia)) as (b & Hb & Hiff).
    exists b. split; [exact Hb|]. rewrite Hiff. split; congruence.
  - exists false. split; [reflexivity|]. split; [discriminate|].
    intros ->. elim E. reflexivity.
Qed.

(** X20.  The comparison of [dotests] never raises on [out[i]], and it
    finds a match exactly when the list of output lines and the list of
    expected lines are equal. *)
Theorem matches_is_equality :
  forall out exp,
    exists b,
      TestOutput.matches out exp = Some b /\ (b = true <-> out = exp).
Proof. exact matches_spec. Qed.

Lemma strip_not_newline (line : Py.str) :
  Py.str_eqb (Py.strip line) [TestOutput.newline] = false.
Proof.
  destruct (Py.str_eqb (Py.strip line) [TestOutput.newline]) eqn:E;
    [|reflexivity].
  apply str_eqb_eq in E. unfold Py.strip in E.
  destruct (rstrip_shape (Py.lstrip line))
    as [[E' _]|(u & c & E' & Hc & _)]; rewrite E' in E; [discriminate|].
  destruct u as [|x u]; [inversion E; subst; discriminate|].
  destruct u; discriminate.
Qed.

(** X21.  The filter [line.strip() != '\n'] on the expected lines never
    removes a line, since a stripped line cannot be a newline: [exp] holds
    every line of the file, blank ones included, with its trailing white
    space cut. *)
Theorem exp_lines_keeps_every_line :
  forall lines, TestOutput.exp_lines lines = map Py.rstrip lines.
Proof.
  intros lines. unfold TestOutput.exp_lines. f_equal.
  induction lines as [|l rest IH]; [reflexivity|].
  cbn [filter]. rewrite strip_not_newline. cbn [negb]. f_equal. exact IH.
Qed.

(** X22.  A blank line in the file of expected output makes the
    comparison fail whatever the program printed: the output lines never
    contain an empty line, and the expected lines then do. *)
Theorem blank_expected_line_never_matches :
  forall stdout lines blank,
    In blank lines -> forallb Py.isspace blank = true ->
    TestOutput.matches (TestOutput.out_lines stdout)
                       (TestOutput.exp_lines lines) = Some false.
Proof.
  intros stdout lines blank Hin Hb.
  destruct (matches_spec (TestOutput.out_lines stdout)
              (TestOutput.exp_lines lines)) as ([|] & Hm & Hiff);
    [|exact Hm].
  exfalso. pose proof (proj1 Hiff eq_refl) as E.
  assert (He : In [] (TestOutput.exp_lines lines)).
  { unfold TestOutput.exp_lines. apply in_map_iff. exists blank. split.
    - destruct (rstrip_shape blank) as [[E' _]|(u & c & _ & _ & F)];
        [exact E' | congruence].
    - apply filter_In. split; [exact Hin|].
      rewrite strip_not_newline. reflexivity. }
  rewrite <- E in He. unfold TestOutput.out_lines in He.
  apply in_map_iff in He. destruct He as (l & El & Hl).
  apply filter_In in Hl. destruct Hl as [_ Hl].
  destruct (rstrip_shape l) as [[_ F]|(u & c & E' & _)].
  - apply strip_blank in F. rewrite F in Hl. discriminate.
  - rewrite E' in El. destruct u; discriminate.
Qed.

Lemma blank_expected_line_never_matches_witness :
  TestOutput.matches (TestOutput.out_lines (Py.of_string "ok"))
    (TestOutput.exp_lines [[111%N; 107%N; 10%N]; [10%N]])
  = Some false.
Proof.
  exact (blank_expected_line_never_matches (Py.of_string "ok")
           [[111%N; 107%N; 10%N]; [10%N]] [10%N]
           ltac:(right; left; reflexivity) eq_refl).
Defined.

(** ** The command of a test case and its name *)

Lemma find_from_at (pre post : Py.str) : forall i,
  ~ In 64%N pre ->
  PyStr.find_from (Py.of_string "@in") (pre ++ Py.of_string "@in" ++ post) i
  = i + Py.len pre.
Proof.
  induction pre as [|c pre IH]; intros i Hn.
  - cbn. lia.
  - cbn [app PyStr.find_from]. change (Py.of_string "@in")
      with [64%N; 105%N; 110%N]. cbn [PyStr.startswith].
    destruct (N.eqb_spec 64 c) as [<-|_]; [elim Hn; left; reflexivity|].
    cbn [andb]. change [64%N; 105%N; 110%N] with (Py.of_string "@in").
    rewrite IH by (intros H; apply Hn; right; exact H).
    unfold Py.len. cbn [List.length]. lia.
Qed.

Lemma find_from_absent (s : Py.str) : forall i,
  ~ In 64%N s -> PyStr.find_from (Py.of_string "@in") s i = -1.
Proof.
  induction s as [|c s IH]; intros i Hn; [reflexivity|].
  cbn [PyStr.find_from]. change (Py.of_string "@in")
    with [64%N; 105%N; 110%N]. cbn [PyStr.startswith].
  destruct (N.eqb_spec 64 c) as [<-|_]; [elim Hn; left; reflexivity|].
  cbn [andb]. apply IH. intros H; apply Hn; right; exact H.
Qed.

(** X23.  When the run string holds ['@in'] after a non-empty prefix
    without ['@'], the command of a case is the run string with ['@in']
    replaced by the name of the input file, and the file is not passed as
    standard input; when the run string starts with ['@in'] or holds no
    ['@'] at all, the command is the run string as it is and the file is
    passed as standard input. *)
Theorem command_of_case :
  forall pre post inFile,
    ~ In 64%N pre ->
    let marked := pre ++ Py.of_string "@in" ++ post in
    (pre <> [] ->
       TestOutput.cmd_for marked inFile = pre ++ inFile ++ post
       /\ TestOutput.reads_stdin marked = false)
    /\ (pre = [] ->
          TestOutput.cmd_for marked inFile = marked
          /\ TestOutput.reads_stdin marked = true)
    /\ TestOutput.cmd_for pre inFile = pre
    /\ TestOutput.reads_stdin pre = true.
Proof.
  intros pre post inFile Hn. cbv zeta.
  unfold TestOutput.cmd_for, TestOutput.reads_stdin, TestOutput.truthy,
    TestOutput.filepos, PyStr.find.
  rewrite (find_from_at pre post 0 Hn), (find_from_absent pre 0 Hn).
  cbn [Z.ltb Z.compare Z.add].
  assert (Hp : 0 <= Py.len pre) by (unfold Py.len; lia).
  destruct (Z.ltb_spec (Py.len pre) 0); [lia|].
  split; [|split; [|split]].
  - intros Hne. destruct (Z.eqb_spec (Py.len pre) 0) as [E|_].
    + destruct pre; [contradiction | discriminate E].
    + cbn [negb]. rewrite slice_prefix. split; [|reflexivity].
      f_equal. f_equal.
      replace (Py.len pre + 3) with (Py.len (pre ++ Py.of_string "@in"))
        by (unfold Py.len; rewrite length_app; cbn; lia).
      rewrite app_assoc. apply slice_from_suffix.
  - intros ->. split; reflexivity.
  - reflexivity.
  - reflexivity.
Qed.

Lemma command_of_case_witness :
  TestOutput.cmd_for (Py.of_string "./prog @in -v") (Py.of_string "t/a.mC")
  = Py.of_string "./prog t/a.mC -v".
Proof.
  exact (proj1 (proj1 (command_of_case (Py.of_string "./prog ")
                         (Py.of_string " -v") (Py.of_string "t/a.mC")
                         ltac:(vm_compute; intuition discriminate))
                      ltac:(discriminate))).
Defined.

Lemma index_first {A : Type} (x : A) (l : list A) :
  Py.index (x :: l) 0 = Some x.
Proof. exact (index_middle [] l x). Qed.

Lemma index_last {A : Type} (l : list A) (x : A) :
  Py.index (l ++ [x]) (-1) = Some x.
Proof.
  unfold Py.index, Py.len. rewrite length_app. cbn [List.length].
  cbn [Z.ltb Z.compare].
  destruct (Z.leb_spec 0 (-1 + Z.of_nat (List.length l + 1))); [|lia].
  destruct (Z.ltb_spec (-1 + Z.of_nat (List.length l + 1))
              (Z.of_nat (List.length l + 1))); [|lia].
  cbn [andb].
  replace (Z.to_nat (-1 + Z.of_nat (List.length l + 1)))
    with (List.length l) by lia.
  rewrite nth_error_app2, Nat.sub_diag by lia. reflexivity.
Qed.

(** X24.  The name of a test never raises; it is the part of the input
    path between the last slash before the first dot and that dot, so a
    directory prefix without dots is dropped with the extension, while a
    path that starts with a dot, such as ['./cases/a.mC'], gives the empty
    name. *)
Theorem test_name_of_path :
  (forall inFile, TestOutput.test_name inFile <> None)
  /\ (forall dir base rest,
        ~ In TestOutput.dot dir -> ~ In TestOutput.dot base ->
        ~ In FileMenu.slash base ->
        TestOutput.test_name
          (dir ++ [FileMenu.slash] ++ base ++ [TestOutput.dot] ++ rest)
        = Some base)
  /\ (forall rest, TestOutput.test_name (TestOutput.dot :: rest) = Some []).
Proof.
  split; [|split].
  - intros inFile. unfold TestOutput.test_name.
    pose proof (split_nonempty TestOutput.dot inFile) as H1.
    destruct (PyStr.split TestOutput.dot inFile) as [|stem ws];
      [contradiction|].
    rewrite index_first.
    pose proof (split_nonempty FileMenu.slash stem) as H2.
    destruct (exists_last H2) as (l & x & ->).
    rewrite index_last. discriminate.
  - intros dir base rest Hd Hb Hs. unfold TestOutput.test_name.
    replace (dir ++ [FileMenu.slash] ++ base ++ [TestOutput.dot] ++ rest)
      with ((dir ++ [FileMenu.slash] ++ base) ++ TestOutput.dot :: rest)
      by (rewrite <- !app_assoc; reflexivity).
    rewrite split_app, split_without_sep.
    + cbn [app]. rewrite index_first.
      rewrite split_app, (split_without_sep _ base Hs). apply index_last.
    + intros Hin. apply in_app_or in Hin. destruct Hin as [Hin|[E|Hin]];
        [exact (Hd Hin) | discriminate E | exact (Hb Hin)].
  - intros rest. unfold TestOutput.test_name. cbn [PyStr.split].
    rewrite N.eqb_refl, index_first. reflexivity.
Qed.

Lemma test_name_of_path_witness :
  TestOutput.test_name (Py.of_string "test/cases/a.mC")
  = Some (Py.of_string "a").
Proof.
  exact (proj1 (proj2 test_name_of_path) (Py.of_string "test/cases")
               (Py.of_string "a") (Py.of_string "mC")
               ltac:(vm_compute; intuition discriminate)
               ltac:(vm_compute; intuition discriminate)
               ltac:(vm_compute; intuition discriminate)).
Defined.

(** ** Where the split-pane renderer writes *)

Lemma put_row (i x xend y x' : Z) (style a : attr) (s : SplitPane.shown)
    (t : Py.str) :
  In (insstr y x' t a) (SplitPane.put i x xend style s) -> y = i.
Proof.
  destruct s; cbn; intros H; [contradiction | |];
    destruct H as [E|[]]; inversion E; reflexivity.
Qed.

Lemma draw_rows_ys (width : Z) (lhs : list Py.str) (lpos : SplitPane.pos)
    (rhs : list Py.str) (rpos : SplitPane.pos) (highlight : bool)
    (rstart lstop rstop : Z) (y x : Z) (t : Py.str) (a : attr) :
  forall rows color,
    In (insstr y x t a)
       (SplitPane.draw_rows width lhs lpos rhs rpos highlight rstart lstop
          rstop rows color) ->
    In y rows.
Proof.
  induction rows as [|i rows IH]; intros color Hin; [contradiction|].
  cbn [SplitPane.draw_rows] in Hin.
  rewrite draw_lhs_put, draw_rhs_put in Hin.
  apply in_app_or in Hin. destruct Hin as [Hin|Hin];
    [left; symmetry; exact (put_row _ _ _ _ _ _ _ _ _ Hin)|].
  apply in_app_or in Hin. destruct Hin as [Hin|Hin];
    [left; symmetry; exact (put_row _ _ _ _ _ _ _ _ _ Hin)|].
  right. exact (IH _ Hin).
Qed.

Lemma drawsplitpane_ys (height width : Z) (lhs : list Py.str)
    (lpos : SplitPane.pos) (rhs : list Py.str) (rpos : SplitPane.pos)
    (highlight : bool) (paneshmt halfgap y x : Z) (t : Py.str) (a : attr) :
  In (insstr y x t a)
     (fst (SplitPane.drawsplitpane height width lhs lpos rhs rpos highlight
             paneshmt halfgap)) ->
  (y = 0 /\ a = SplitPane.infocolor) \/ 1 <= y < height.
Proof.
  unfold SplitPane.drawsplitpane.
  assert (Hlab : In (insstr y x t a)
                    (fst (fst (SplitPane.layout width (snd lpos) paneshmt
                                 halfgap))) ->
                 y = 0 /\ a = SplitPane.infocolor).
  { unfold SplitPane.layout.
    destruct (negb (paneshmt =? 0));
      [destruct (_ >=? _); [|destruct (_ <=? _)]|]; cbn [fst];
      intros H; repeat (destruct H as [H|H]; [inversion H; tauto|]);
      contradiction. }
  destruct (SplitPane.layout width (snd lpos) paneshmt halfgap)
    as [[labels rstart] lstop].
  cbn [fst snd] in *. intros [E|Hin]; [discriminate|]. cbn [app] in Hin.
  apply in_app_or in Hin. destruct Hin as [Hin|Hin]; [left; auto|].
  apply in_app_or in Hin. destruct Hin as [Hin|[E|[]]]; [|discriminate].
  right. apply draw_rows_ys in Hin. apply range_In in Hin. exact Hin.
Qed.

(** X25.  The renderer writes the pane labels on row 0 and everything
    else on the rows [1 .. height-1]: no row of a buffer is written on the
    label row or below the window. *)
Theorem drawsplitpane_rows_inside_window :
  forall height width lhs lpos rhs rpos highlight paneshmt halfgap y x t a,
    In (insstr y x t a)
       (fst (SplitPane.drawsplitpane height width lhs lpos rhs rpos
               highlight paneshmt halfgap)) ->
    (y = 0 /\ a = SplitPane.infocolor) \/ 1 <= y < height.
Proof.
  intros. eapply drawsplitpane_ys. eassumption.
Qed.

Lemma drawsplitpane_rows_inside_window_witness :
  (3 = 0 /\ SplitPane.stdcolor = SplitPane.infocolor) \/ 1 <= 3 < 24.
Proof.
  apply (drawsplitpane_rows_inside_window 24 80
           (map Py.of_string ["a"; "b"; "c"; "d"]%string) (0, 0) [] (0, 0)
           false 0 2 3 0 (Py.of_string "d") SplitPane.stdcolor).
  vm_compute. do 5 right. left. reflexivity.
Defined.

Lemma slice_length {A : Type} (l : list A) (a b : Z) :
  0 <= a <= b -> Py.len (Py.slice l a b) <= b - a.
Proof.
  intros Hab. unfold Py.slice, Py.slice_bound, Py.len.
  destruct (Z.ltb_spec a 0); [lia|]. destruct (Z.ltb_spec b 0); [lia|].
  rewrite length_firstn. lia.
Qed.

Lemma layout_columns (width lcol paneshmt : Z) :
  4 <= width ->
  0 <= SplitPane.rstart_of width lcol paneshmt 2 <= width
  /\ 0 <= SplitPane.lstop_of width lcol paneshmt 2 - lcol
     <= SplitPane.rstart_of width lcol paneshmt 2.
Proof.
  intros Hw. unfold SplitPane.rstart_of, SplitPane.lstop_of,
    SplitPane.layout.
  generalize (Z.div_mod width 2) (Z.mod_pos_bound width 2). intros Hd Hb.
  rewrite Z.geb_leb.
  destruct (paneshmt =? 0) eqn:E0; cbn [negb].
  - apply Z.eqb_eq in E0. subst. cbn [fst snd]. lia.
  - destruct (Z.leb_spec (width - 2) (width / 2 + paneshmt));
      [cbn [fst snd]; lia|].
    destruct (Z.leb_spec (width / 2 + paneshmt) 2); cbn [fst snd]; lia.
Qed.

(** X26.  With column offsets that are not negative, on a window at least
    4 columns wide and with the default gap, the text of the left pane
    starts at column 0 and ends before the column where the right pane
    starts, and the text of the right pane starts there and ends inside
    the window: the two panes never overlap and nothing is written past
    the right edge. *)
Theorem pane_text_stays_in_its_columns :
  forall height width lhs lpos rhs rpos highlight paneshmt y x t a,
    0 <= snd lpos -> 0 <= snd rpos -> 4 <= width ->
    In (insstr y x t a)
       (fst (SplitPane.drawsplitpane height width lhs lpos rhs rpos
               highlight paneshmt 2)) ->
    a <> SplitPane.infocolor ->
    let rstart := SplitPane.rstart_of width (snd lpos) paneshmt 2 in
    0 <= rstart <= width
    /\ ((x = 0 /\ Py.len t <= rstart)
        \/ (x = rstart /\ x + Py.len t <= width)).
Proof.
  intros height width lhs lpos rhs rpos highlight paneshmt y x t a
         Hl Hr Hw Hin Ha. cbv zeta.
  destruct (layout_columns width (snd lpos) paneshmt Hw) as [R1 R2].
  split; [exact R1|].
  destruct (drawsplitpane_ys _ _ _ _ _ _ _ _ _ _ _ _ _ Hin) as [[_ E]|Hy];
    [contradiction|].
  assert (Hrow : In (insstr y x t a)
                    (row_calls y
                       (fst (SplitPane.drawsplitpane height width lhs lpos
                               rhs rpos highlight paneshmt 2)))).
  { unfold row_calls. apply filter_In. split; [exact Hin|].
    cbn. apply Z.eqb_refl. }
  rewrite drawsplitpane_row in Hrow by exact Hy.
  apply in_app_or in Hrow. destruct Hrow as [Hrow|Hrow].
  - left. unfold SplitPane.pane_shows in Hrow.
    destruct (_ =? snd lpos); [contradiction|].
    destruct (SplitPane.landing lhs lpos y) as [line|].
    + destruct Hrow as [E|[]]. inversion E; subst. split; [reflexivity|].
      pose proof (slice_length line (snd lpos)
                    (SplitPane.lstop_of width (snd lpos) paneshmt 2)
                    ltac:(lia)). lia.
    + destruct (_ =? Py.len lhs); [|contradiction].
      destruct Hrow as [E|[]]. inversion E; subst. contradiction.
  - right. unfold SplitPane.pane_shows in Hrow.
    destruct (_ =? snd rpos); [contradiction|].
    destruct (SplitPane.landing rhs rpos y) as [line|].
    + destruct Hrow as [E|[]]. inversion E; subst. split; [reflexivity|].
      unfold SplitPane.rstop_of.
      pose proof (slice_length line (snd rpos)
                    (width - SplitPane.rstart_of width (snd lpos) paneshmt 2
                     + snd rpos) ltac:(lia)). lia.
    + destruct (_ =? Py.len rhs); [|contradiction].
      destruct Hrow as [E|[]]. inversion E; subst. contradiction.
Qed.

Lemma pane_text_stays_in_its_columns_witness :
  0 <= SplitPane.rstart_of 80 0 0 2 <= 80
  /\ ((0 = 0 /\ Py.len (Py.of_string "d") <= SplitPane.rstart_of 80 0 0 2)
      \/ (0 = SplitPane.rstart_of 80 0 0 2
          /\ 0 + Py.len (Py.of_string "d") <= 80)).
Proof.
  apply (pane_text_stays_in_its_columns 24 80
           (map Py.of_string ["a"; "b"; "c"; "d"]%string) (0, 0) [] (0, 0)
           false 0 3 0 (Py.of_string "d") SplitPane.stdcolor);
    try (cbn; lia); [|discriminate].
  vm_compute. do 5 right. left. reflexivity.
Defined.

Lemma confirm_usage_raises_witness :
  Window.confirm_usage
    (snd (Window.run [Window.Stopscr; Window.Del] (Window.new false)))
  = None.
Proof.
  apply (proj2 (confirm_usage_raises [Window.Stopscr; Window.Del])).
  repeat constructor; discriminate.
Defined.

Lemma matches_is_equality_witness :
  TestOutput.matches [Py.of_string "a"; Py.of_string "b"]
                     [Py.of_string "a"; Py.of_string "b"]
  = Some true.
Proof.
  destruct (matches_is_equality [Py.of_string "a"; Py.of_string "b"]
              [Py.of_string "a"; Py.of_string "b"]) as (b & Hb & Hiff).
  rewrite Hb. f_equal. apply Hiff. reflexivity.
Defined.

(** * The renderers on a real window *)

(** ** The writes of the split-pane renderer are inside the window *)

Ltac inside_solve :=
  unfold Screen.all_inside, Screen.inside; cbn [forallb];
  rewrite ?andb_true_iff, ?Z.leb_le, ?Z.ltb_lt; repeat split; lia.

Lemma put_inside (h w i x xend : Z) (style : attr) (s : SplitPane.shown) :
  1 <= i < h -> 0 <= x < w -> 0 <= xend < w ->
  Screen.all_inside h w (SplitPane.put i x xend style s) = true.
Proof. intros Hi Hx He. destruct s; cbn [SplitPane.put]; inside_solve. Qed.

Lemma all_inside_app (h w : Z) (a b : list call) :
  Screen.all_inside h w (a ++ b)
  = Screen.all_inside h w a && Screen.all_inside h w b.
Proof. apply forallb_app. Qed.

Lemma draw_rows_inside (h w : Z) (lhs : list Py.str) (lpos : SplitPane.pos)
    (rhs : list Py.str) (rpos : SplitPane.pos) (highlight : bool)
    (rstart lstop rstop : Z) :
  2 <= w ->
  (rstop <> snd rpos -> 0 <= rstart < w /\ 4 <= w) ->
  forall rows color,
    Forall (fun i => 1 <= i < h) rows ->
    Screen.all_inside h w
      (SplitPane.draw_rows w lhs lpos rhs rpos highlight rstart lstop rstop
         rows color) = true.
Proof.
  intros Hw Hr. induction rows as [|i rows IH]; intros color Hall;
    [reflexivity|].
  inversion Hall as [|? ? Hi Hall']; subst.
  cbn [SplitPane.draw_rows]. rewrite draw_lhs_put, draw_rhs_put.
  rewrite !all_inside_app, (IH _ Hall').
  rewrite put_inside by lia. cbn [andb]. rewrite andb_true_r.
  destruct (Z.eq_dec rstop (snd rpos)) as [E|E].
  - unfold SplitPane.pane_shows. rewrite E, Z.eqb_refl. reflexivity.
  - destruct (Hr E). apply put_inside; lia.
Qed.

Lemma drawsplitpane_inside (height width : Z) (lhs : list Py.str)
    (lpos : SplitPane.pos) (rhs : list Py.str) (rpos : SplitPane.pos)
    (highlight : bool) (paneshmt : Z) :
  1 <= height ->
  (paneshmt = 0 /\ 11 <= width) \/ (paneshmt <> 0 /\ 6 <= width)
  \/ (0 < paneshmt /\ width / 2 - 2 < paneshmt /\ 2 <= width) ->
  Screen.all_inside height width
    (fst (SplitPane.drawsplitpane height width lhs lpos rhs rpos highlight
            paneshmt 2)) = true.
Proof.
  intros Hh Hw. unfold SplitPane.drawsplitpane.
  generalize (Z.div_mod width 2) (Z.mod_pos_bound width 2). intros Hd Hb.
  assert (Hrows : forall rstart lstop,
             2 <= width ->
             (rstart <> width -> 0 <= rstart < width /\ 4 <= width) ->
             Screen.all_inside height width
               (SplitPane.draw_rows width lhs lpos rhs rpos highlight rstart
                  lstop (width - rstart + snd rpos) (Py.range 1 height)
                  SplitPane.stdcolor) = true).
  { intros rstart lstop H2 Hr. apply draw_rows_inside; [exact H2 | |].
    - intros Hne. apply Hr. lia.
    - apply Forall_forall. intros i Hi. apply range_In in Hi. exact Hi. }
  assert (Hall : forall labels rows,
             Screen.all_inside height width labels = true ->
             Screen.all_inside height width rows = true ->
             Screen.all_inside height width
               ([erase] ++ labels ++ rows ++ [refresh]) = true).
  { intros labels rows Hl Hr. rewrite !all_inside_app, Hl, Hr.
    reflexivity. }
  unfold SplitPane.layout. rewrite Z.geb_leb.
  destruct (Z.eqb_spec paneshmt 0) as [E0|E0]; cbn [negb].
  - cbn [fst snd]. apply Hall; [inside_solve|]. apply Hrows; lia.
  - destruct (Z.leb_spec (width - 2) (width / 2 + paneshmt)).
    + cbn [fst snd]. apply Hall; [inside_solve|]. apply Hrows; lia.
    + destruct (Z.leb_spec (width / 2 + paneshmt) 2); cbn [fst snd];
        (apply Hall; [inside_solve|]; apply Hrows; lia).
Qed.







(** ** The key table of the diff session *)

(** C10.  A directional key always asks for a repaint and changes nothing
    but the two pane offsets.  In independent-scroll mode ([singlescroll]
    set) the pane the side toggle names gets the offset the key table
    gives an active pane, and the row and column offset of the other pane
    are unchanged; in locked-scroll mode both panes get the offset of the
    key table.  Up and Down always change the offset of an active pane. *)
Theorem independent_scroll_frame :
  forall lhs rhs lwidth rwidth ch s,
    Diff.directional ch = true ->
    let k := Diff.on_key lhs rhs lwidth rwidth ch s in
    let s' := fst k in
    let h := Diff.lastheight s in
    let lmove := Pane.moved ch h (Py.len lhs) (Pane.left_may_right lwidth s)
                   (Diff.lpos s) in
    let rmove := Pane.moved ch h (Py.len rhs) (Pane.right_may_right rwidth s)
                   (Diff.rpos s) in
    snd k = true
    /\ (Diff.singlescroll s = true -> Diff.leftscroll s = true ->
          Diff.lpos s' = lmove /\ Diff.rpos s' = Diff.rpos s)
    /\ (Diff.singlescroll s = true -> Diff.leftscroll s = false ->
          Diff.lpos s' = Diff.lpos s /\ Diff.rpos s' = rmove)
    /\ (Diff.singlescroll s = false ->
          Diff.lpos s' = lmove /\ Diff.rpos s' = rmove)
    /\ (ch = KEY_UP \/ ch = KEY_DOWN ->
          lmove <> Diff.lpos s /\ rmove <> Diff.rpos s)
    /\ Diff.with_pos s' (Diff.lpos s) (Diff.rpos s) = s.
Proof.
  intros lhs rhs lwidth rwidth ch s Hd. cbv zeta.
  destruct s as [[lrow lcol] [rrow rcol] h w single left hl shmt].
  unfold Pane.left_may_right, Pane.right_may_right.
  cbn [Diff.lpos Diff.rpos Diff.lastheight Diff.lastwidth Diff.paneshmt
       Diff.singlescroll Diff.leftscroll snd].
  directional_cases Hd;
    (split; [reflexivity|]);
    (split; [intros -> ->|]);
    try (split; [intros -> ->|]);
    try (split; [intros ->|]);
    try (split; [intros [E|E]; try discriminate E;
                 split; intros E'; inversion E'; lia|]);
    cbn -[Z.add Z.sub Z.div Z.ltb Z.gtb];
    unfold Diff.scroll_left, Diff.scroll_right;
    cbn -[Z.add Z.sub Z.div Z.ltb Z.gtb];
    repeat match goal with
      | |- context [?a >? ?b] => destruct (a >? b)
      | |- context [?a <? ?b] => destruct (a <? b)
      end; cbn [andb]; auto.
Qed.

Lemma independent_scroll_frame_witness :
  Diff.lpos (fst (Diff.on_key [Py.of_string "a"; Py.of_string "b"]
                    [Py.of_string "a"; Py.of_string "x"] 1 1 KEY_DOWN
                    (Diff.mkstate (-1, 0) (3, 2) 24 80 true true true 0)))
  = (0, 0)
  /\ Diff.rpos (fst (Diff.on_key [Py.of_string "a"; Py.of_string "b"]
                       [Py.of_string "a"; Py.of_string "x"] 1 1 KEY_DOWN
                       (Diff.mkstate (-1, 0) (3, 2) 24 80 true true true 0)))
     = (3, 2).
Proof.
  exact (proj1 (proj2 (independent_scroll_frame
           [Py.of_string "a"; Py.of_string "b"]
           [Py.of_string "a"; Py.of_string "x"] 1 1 KEY_DOWN
           (Diff.mkstate (-1, 0) (3, 2) 24 80 true true true 0)
           eq_refl)) eq_refl eq_refl).
Defined.

(** X14.  The End key puts the end of the buffer at the bottom of the
    window: when the left pane is active and its buffer has more lines
    than the window has rows, the repaint that follows on a window of the
    same height, wide enough for the pane labels (11 columns or more, 6
    or more when the boundary is shifted) and with the left pane not
    collapsed, writes nothing outside the window, writes the end marker
    of the left pane on the last row, and the last line of the buffer on
    the row above it when the window has 3 rows or more. *)
Theorem end_key_shows_end_marker :
  forall lhs rhs lwidth rwidth W s,
    Diff.scroll_left s = true ->
    Diff.lastheight s < Py.len lhs ->
    2 <= Diff.lastheight s ->
    (Diff.paneshmt s = 0 -> 11 <= W) ->
    (Diff.paneshmt s <> 0 -> 6 <= W) ->
    SplitPane.lstop_of W (snd (Diff.lpos s)) (Diff.paneshmt s) 2
    <> snd (Diff.lpos s) ->
    let H := Diff.lastheight s in
    let calls := fst (Diff.pass lhs rhs lwidth rwidth H W KEY_END s) in
    Screen.all_inside H W calls = true
    /\ In (insstr (H - 1) 1 SplitPane.END SplitPane.infocolor) calls
    /\ (3 <= H ->
        exists style,
          In (insstr (H - 2) 0
                (Py.slice (Py.item lhs (Py.len lhs - 1)) (snd (Diff.lpos s))
                   (SplitPane.lstop_of W (snd (Diff.lpos s))
                      (Diff.paneshmt s) 2))
                style) calls).
Proof.
  intros lhs rhs lwidth rwidth W s Hl Hlen H2 Hw0 Hw1 Hstop. cbv zeta.
  rewrite pass_calls by (rewrite on_key_end; reflexivity).
  rewrite on_key_end. cbn [fst]. rewrite Hl.
  destruct (Z.ltb_spec (Diff.lastheight s) (Py.len lhs)) as [_|]; [|lia].
  cbn [andb]. destruct s as [[lrow lcol] rp h w single left hl shmt].
  cbn [Diff.with_pos Diff.lpos Diff.rpos Diff.highlight Diff.paneshmt
       Diff.lastheight snd fst] in *.
  split; [|split].
  - apply drawsplitpane_inside; [lia|].
    destruct (Z.eq_dec shmt 0); [left | right; left]; auto.
  - apply (row_calls_In (h - 1)).
    rewrite drawsplitpane_row by lia. apply in_or_app; left.
    unfold SplitPane.pane_shows, SplitPane.landing. cbn [fst snd].
    destruct (Z.eqb_spec (SplitPane.lstop_of W lcol shmt 2) lcol);
      [contradiction|].
    replace (Py.len lhs - h + 1 + (h - 1)) with (Py.len lhs) by lia.
    rewrite Z.ltb_irrefl, andb_false_r, Z.eqb_refl. left. reflexivity.
  - intros H3. eexists. apply (row_calls_In (h - 2)).
    rewrite drawsplitpane_row by lia. apply in_or_app; left.
    unfold SplitPane.pane_shows, SplitPane.landing. cbn [fst snd].
    destruct (Z.eqb_spec (SplitPane.lstop_of W lcol shmt 2) lcol);
      [contradiction|].
    replace (Py.len lhs - h + 1 + (h - 2)) with (Py.len lhs - 1) by lia.
    destruct (Z.leb_spec 0 (Py.len lhs - 1)); [|lia].
    destruct (Z.ltb_spec (Py.len lhs - 1) (Py.len lhs)); [|lia].
    left. reflexivity.
Qed.

Lemma end_key_shows_end_marker_witness :
  Screen.all_inside 3 80
    (fst (Diff.pass (map Py.of_string ["a"; "b"; "c"; "d"]%string) [] 1 0
            3 80 KEY_END (Diff.initial 3 80))) = true
  /\ In (insstr 2 1 SplitPane.END SplitPane.infocolor)
        (fst (Diff.pass (map Py.of_string ["a"; "b"; "c"; "d"]%string) [] 1 0
                3 80 KEY_END (Diff.initial 3 80))).
Proof.
  pose proof (end_key_shows_end_marker
                (map Py.of_string ["a"; "b"; "c"; "d"]%string) [] 1 0 80
                (Diff.initial 3 80) eq_refl
                ltac:(vm_compute; reflexivity) ltac:(cbn; lia)
                ltac:(cbn; lia) ltac:(cbn; lia)
                ltac:(vm_compute; discriminate)) as (K1 & K2 & _).
  exact (conj K1 K2).
Defined.

(** ** The writes of a menu frame are inside the window *)

Lemma inside_insstr (h w y x : Z) (t : Py.str) (a : attr) :
  0 <= y < h -> 0 <= x < w -> Screen.inside h w (insstr y x t a) = true.
Proof.
  intros Hy Hx. unfold Screen.inside.
  rewrite !andb_true_iff, !Z.leb_le, !Z.ltb_lt. lia.
Qed.

Lemma all_inside_cons (h w : Z) (c : call) (cs : list call) :
  Screen.all_inside h w (c :: cs)
  = Screen.inside h w c && Screen.all_inside h w cs.
Proof. reflexivity. Qed.

Section MenuInside.
Import Menu.
Variables (title : Py.str) (body : list (list Py.str))
          (err0 : option errarg) (choices : list Py.str) (curs : Z).
Variables (H W : Z).

Lemma maxwidth_nonneg : 0 <= maxwidth title body err0 choices.
Proof.
  unfold maxwidth.
  pose proof (body_maxlen_bound body (Py.len title)) as [B _].
  set (m1 := fold_left (fun m section => maxlen section m) body
               (Py.len title)) in *.
  assert (0 <= m1) by (unfold Py.len in B; lia).
  set (m2 := match err0 with
             | Some (ErrStr s) => Z.max (Py.len s) m1
             | Some (ErrList l) => maxlen l m1
             | None => m1
             end).
  assert (m1 <= m2).
  { unfold m2. destruct err0 as [[e|es]|]; try lia. apply maxlen_bound. }
  pose proof (maxlen_bound choices m2) as [C _]. lia.
Qed.

(** The indent is never negative, and on a window of 9 columns or more
    the column [4 + lshift] of the body, the error and the choices is
    inside the window. *)
Lemma lshift_bounds :
  0 <= lshift_of title body err0 choices W
  /\ (9 <= W -> 4 + lshift_of title body err0 choices W < W).
Proof.
  pose proof maxwidth_nonneg as M. unfold lshift_of.
  destruct (Z.ltb_spec (maxwidth title body err0 choices) W); [|lia].
  generalize (Z.div_mod (W - maxwidth title body err0 choices) 2)
             (Z.mod_pos_bound (W - maxwidth title body err0 choices) 2).
  lia.
Qed.

Lemma draw_section_inside (ls : Z) (section : list Py.str) : forall ln,
  0 <= ln + 1 -> ln + Py.len section < H -> 0 <= 4 + ls < W ->
  Screen.all_inside H W (fst (draw_section ls section ln)) = true.
Proof.
  induction section as [|line rest IH]; intros ln H0 H1 Hx; [reflexivity|].
  cbn [draw_section]. specialize (IH (ln + 1)).
  destruct (draw_section ls rest (ln + 1)) as [cs l']. cbn [fst] in *.
  unfold Py.len in *. cbn [List.length] in H1. rewrite Nat2Z.inj_succ in H1.
  rewrite all_inside_cons, IH, inside_insstr by lia. reflexivity.
Qed.

Lemma draw_body_inside (ls : Z) (sections : list (list Py.str)) :
  forall ln,
    0 <= ln + 1 -> snd (draw_body ls sections ln) <= H -> 0 <= 4 + ls < W ->
    Screen.all_inside H W (fst (draw_body ls sections ln)) = true.
Proof.
  induction sections as [|section rest IH]; intros ln H0 H1 Hx;
    [reflexivity|].
  cbn [draw_body] in *.
  pose proof (draw_section_inside ls section ln) as IS.
  pose proof (draw_section_snd ls section ln) as E.
  destruct (draw_section ls section ln) as [cs l']. cbn [fst snd] in IS, E.
  subst l'. specialize (IH (ln + Py.len section + 1)).
  pose proof (draw_body_snd ls rest (ln + Py.len section + 1)) as [_ M].
  destruct (draw_body ls rest (ln + Py.len section + 1)) as [cs' ln'].
  cbn [fst snd] in *.
  assert (0 <= Py.len section) by (unfold Py.len; lia).
  rewrite all_inside_app, IS, IH by lia. reflexivity.
Qed.

Lemma draw_errlist_inside (ls : Z) (es : list Py.str) : forall ln,
  0 <= ln -> snd (draw_errlist ls es ln) <= H -> 0 <= 4 + ls < W ->
  Screen.all_inside H W (fst (draw_errlist ls es ln)) = true.
Proof.
  induction es as [|e rest IH]; intros ln H0 H1 Hx; [reflexivity|].
  cbn [draw_errlist] in *. destruct e as [|c e']; [apply IH; assumption|].
  specialize (IH (ln + 1)).
  pose proof (draw_errlist_rows ls rest (ln + 1)) as [M _].
  destruct (draw_errlist ls rest (ln + 1)) as [cs ln']. cbn [fst snd] in *.
  rewrite all_inside_cons, IH, inside_insstr by lia. reflexivity.
Qed.

Lemma draw_err_inside (ls ln : Z) (s : state) :
  0 <= ln -> snd (fst (draw_err err0 choices H ls ln s)) <= H ->
  0 <= 4 + ls < W ->
  Screen.all_inside H W (fst (fst (draw_err err0 choices H ls ln s))) = true.
Proof.
  intros H0. unfold draw_err. destruct (truthy (err s)); [|reflexivity].
  destruct (err s) as [[e|l]|].
  - destruct (errorcounter s); cbn [fst snd]; intros H1 Hx;
      rewrite all_inside_cons, inside_insstr by lia; reflexivity.
  - pose proof (draw_errlist_inside ls l ln H0) as IL.
    destruct (draw_errlist ls l ln) as [cs ln']. cbn [fst snd] in IL.
    destruct (errorcounter s); cbn [fst snd]; intros H1 Hx; apply IL; lia.
  - destruct (errorcounter s); reflexivity.
Qed.

Lemma draw_choices_inside (ls tl hp : Z) : forall rest i ln,
  0 <= ln <= H -> 0 <= 4 + ls < W ->
  Screen.all_inside H W (draw_choices H ls tl hp i rest ln) = true.
Proof.
  induction rest as [|line rest IH]; intros i ln Hln Hx; [reflexivity|].
  cbn [draw_choices]. destruct (Z.eqb_spec ln H); [reflexivity|].
  destruct (i >=? tl).
  - rewrite all_inside_cons, IH, inside_insstr by lia. reflexivity.
  - apply IH; lia.
Qed.

Lemma inside_move (h w y x : Z) :
  0 <= y < h -> 0 <= x < w -> Screen.inside h w (move y x) = true.
Proof.
  intros Hy Hx. unfold Screen.inside.
  rewrite !andb_true_iff, !Z.leb_le, !Z.ltb_lt. lia.
Qed.

Lemma draw_cursor_inside (ls top : Z) (s : state) (cc : list call) :
  draw_cursor choices curs W ls top s = Some cc ->
  0 <= ls ->
  curs = 0 \/ 0 <= top + hpos s - topline s < H ->
  Screen.all_inside H W cc = true.
Proof.
  unfold draw_cursor. intros Hcur Hl Hc.
  destruct (Z.eqb_spec curs 0) as [E|E]; unfold negb in Hcur;
    [injection Hcur as <-; reflexivity|].
  destruct Hc as [Hc|Hc]; [contradiction|].
  destruct (Py.index choices (hpos s)) as [choice|]; [|discriminate].
  assert (0 <= Py.len choice) by (unfold Py.len; lia).
  remember (4 + ls + Py.len choice) as col eqn:Ecol.
  destruct (Z.ltb_spec col W); injection Hcur as <-; [|reflexivity].
  rewrite all_inside_cons, inside_move by lia. reflexivity.
Qed.

(** A frame that ends above the last row, on a window wide enough for the
    indented lines, writes and moves inside the window only. *)
Lemma frame_inside (s s' : state) (top : Z) :
  snd (frame title body err0 choices curs H W s) = Some (s', top) ->
  top <= H ->
  4 + lshift_of title body err0 choices W < W ->
  curs = 0 \/ 0 <= top + hpos s' - topline s' < H ->
  Screen.all_inside H W (fst (frame title body err0 choices curs H W s))
  = true.
Proof.
  pose proof lshift_bounds as [Hl _]. unfold frame.
  set (ls := lshift_of title body err0 choices W) in *.
  pose proof (draw_body_inside ls body 1) as IB.
  pose proof (draw_body_snd ls body 1) as [_ MB].
  destruct (draw_body ls body 1) as [cbody linenum]. cbn [fst snd] in IB, MB.
  pose proof (draw_err_inside ls (linenum + 1) (expire err0 s)) as IE.
  pose proof (draw_err_rows choices err0 H ls (linenum + 1) (expire err0 s))
    as [ME _].
  destruct (draw_err err0 choices H ls (linenum + 1) (expire err0 s))
    as [[cerr top1] s1]. cbn [fst snd] in IE, ME.
  pose proof (draw_choices_inside ls (topline s1) (hpos s1) choices 0 top1)
    as IC.
  destruct (draw_cursor choices curs W ls top1 s1) as [cc|] eqn:Hcur;
    cbn [fst snd]; [|discriminate].
  intros X Htop Hw Hc. inversion X; subst s1 top1.
  pose proof (draw_cursor_inside ls top s' cc Hcur Hl Hc) as Hcc.
  rewrite !all_inside_app, IB, IE, IC, Hcc by lia.
  rewrite !all_inside_cons, inside_insstr by lia. reflexivity.
Qed.

(** With no error to show the frame leaves the state as it is, and the
    choices start on row [choices_top]. *)
Lemma frame_noerr (s : state) :
  err s = None -> curs = 0 \/ 0 <= hpos s < Py.len choices ->
  snd (frame title body err0 choices curs H W s)
  = Some (s, choices_top body).
Proof.
  intros He Hh. destruct s as [e ec t h]. cbn [err hpos] in *. subst e.
  unfold frame, expire, draw_err.
  cbn [truthy andb err errorcounter topline hpos].
  pose proof (draw_body_snd (lshift_of title body err0 choices W) body 1)
    as [E _].
  destruct (draw_body _ body 1) as [cbody linenum]. cbn [snd] in E.
  unfold draw_cursor, choices_top. cbn [hpos topline]. rewrite <- E.
  destruct Hh as [->|Hh]; [reflexivity|].
  destruct (index_in_range choices h Hh) as [c ->].
  destruct (negb (curs =? 0)); [destruct (_ <? _)|]; reflexivity.
Qed.

Lemma on_key_visible (infobox : bool) (top ch : Z) (s s' : state) :
  0 <= topline s <= hpos s -> hpos s < Py.len choices ->
  top + hpos s - topline s < H ->
  on_key choices infobox H top ch s = Continue s' ->
  0 <= topline s' <= hpos s' /\ hpos s' < Py.len choices
  /\ top + hpos s' - topline s' < H /\ err s' = err s.
Proof.
  destruct s as [e ec t h]. intros Ht Hh Hv Hk.
  cbn [topline hpos err errorcounter] in *.
  unfold on_key in Hk. cbn [topline hpos err errorcounter] in Hk.
  rewrite ?Z.gtb_ltb, ?Z.geb_leb in Hk.
  split_ifs Hk; try discriminate; inversion Hk; subst; clear Hk;
    cbn [topline hpos err errorcounter];
    bool_props; repeat split; lia.
Qed.

(** While no error is shown, on a window of fixed size that is wide enough
    for the indented lines, a menu whose selection starts on a visible row
    writes and moves inside the window only, whatever the keys. *)
Lemma loop_inside (infobox : bool) (inputs : list input) : forall s,
  Forall (fun i => in_height i = H /\ in_width i = W) inputs ->
  4 + lshift_of title body err0 choices W < W ->
  err s = None ->
  0 <= topline s <= hpos s -> hpos s < Py.len choices ->
  choices_top body + hpos s - topline s < H ->
  Screen.all_inside H W
    (fst (loop title body err0 choices infobox curs inputs s)) = true.
Proof.
  induction inputs as [|i rest IH]; intros s Hall Hw He Ht Hh Hv;
    [reflexivity|].
  inversion Hall as [|? ? Hi Hall']; subst. destruct Hi as [Ei Ej].
  cbn [loop]. unfold pass. rewrite Ei, Ej.
  pose proof (choices_top_ge_2 body) as H2.
  pose proof (frame_noerr s He ltac:(right; lia)) as Hf.
  pose proof (frame_inside s s (choices_top body) Hf ltac:(lia) Hw
                ltac:(right; lia)) as Hin.
  destruct (frame title body err0 choices curs H W s) as [cs o].
  cbn [fst snd] in Hf, Hin. subst o.
  destruct (on_key choices infobox H (choices_top body) (in_key i) s)
    as [s2|v] eqn:Hk; cbn [fst].
  - destruct (on_key_visible infobox _ _ _ _ Ht Hh Hv Hk)
      as (K1 & K2 & K3 & K4).
    specialize (IH s2 Hall' Hw ltac:(congruence) K1 K2 K3).
    destruct (loop title body err0 choices infobox curs rest s2) as [cs' r].
    cbn [fst] in *. rewrite !all_inside_app, Hin, IH. reflexivity.
  - rewrite all_inside_app, Hin. reflexivity.
Qed.
End MenuInside.

(** ** The columns of a menu frame *)

Section MenuColumns.
Import Menu.

Lemma draw_section_cols (ls : Z) (section : list Py.str) :
  forall ln y x t a,
    In (insstr y x t a) (fst (draw_section ls section ln)) -> x = 4 + ls.
Proof.
  induction section as [|line rest IH]; intros ln y x t a Hin;
    [contradiction|].
  cbn [draw_section] in Hin. specialize (IH (ln + 1) y x t a).
  destruct (draw_section ls rest (ln + 1)) as [cs l']. cbn [fst] in *.
  destruct Hin as [E|Hin]; [congruence | exact (IH Hin)].
Qed.

Lemma draw_body_cols (ls : Z) (sections : list (list Py.str)) :
  forall ln y x t a,
    In (insstr y x t a) (fst (draw_body ls sections ln)) -> x = 4 + ls.
Proof.
  induction sections as [|section rest IH]; intros ln y x t a Hin;
    [contradiction|].
  cbn [draw_body] in Hin.
  pose proof (draw_section_cols ls section ln y x t a) as S.
  destruct (draw_section ls section ln) as [cs l']. cbn [fst] in S.
  specialize (IH (l' + 1) y x t a).
  destruct (draw_body ls rest (l' + 1)) as [cs' ln']. cbn [fst] in *.
  apply in_app_or in Hin. destruct Hin as [Hin|Hin]; auto.
Qed.

Lemma draw_errlist_cols (ls : Z) (es : list Py.str) :
  forall ln y x t a,
    In (insstr y x t a) (fst (draw_errlist ls es ln)) -> x = 4 + ls.
Proof.
  induction es as [|e rest IH]; intros ln y x t a Hin; [contradiction|].
  cbn [draw_errlist] in Hin. destruct e as [|c e']; [exact (IH _ _ _ _ _ Hin)|].
  specialize (IH (ln + 1) y x t a).
  destruct (draw_errlist ls rest (ln + 1)) as [cs l']. cbn [fst] in *.
  destruct Hin as [E|Hin]; [congruence | exact (IH Hin)].
Qed.

Lemma draw_err_cols (choices : list Py.str) (err0 : option errarg)
    (H ls ln : Z) (s : state) :
  forall y x t a,
    In (insstr y x t a) (fst (fst (draw_err err0 choices H ls ln s))) ->
    x = 4 + ls.
Proof.
  intros y x t a. unfold draw_err.
  destruct (truthy (err s)); [|contradiction].
  destruct (err s) as [[e|l]|].
  - destruct (errorcounter s); cbn [fst];
      (intros [E|[]]; congruence).
  - pose proof (draw_errlist_cols ls l ln y x t a) as L.
    destruct (draw_errlist ls l ln) as [cs l']. cbn [fst] in L.
    destruct (errorcounter s); cbn [fst]; exact L.
  - destruct (errorcounter s); cbn [fst]; contradiction.
Qed.

Lemma draw_choices_cols (H ls tl hp : Z) : forall rest i ln y x t a,
  In (insstr y x t a) (draw_choices H ls tl hp i rest ln) ->
  ln <= y /\ x = 4 + ls.
Proof.
  induction rest as [|line rest IH]; intros i ln y x t a Hin;
    [contradiction|].
  cbn [draw_choices] in Hin. destruct (ln =? H); [contradiction|].
  destruct (i >=? tl).
  - destruct Hin as [E|Hin].
    + injection E as <- <- _ _. split; [lia | reflexivity].
    + destruct (IH _ _ _ _ _ _ Hin). split; [lia | assumption].
  - exact (IH _ _ _ _ _ _ Hin).
Qed.

Variables (title : Py.str) (body : list (list Py.str))
          (err0 : option errarg) (choices : list Py.str) (curs : Z).

(** A frame writes the title on row 0 at the indent, and everything else
    on a row from 2 on, 4 columns to the right of the indent. *)
Lemma frame_cols (H W : Z) (s : state) :
  let l := lshift_of title body err0 choices W in
  let calls := fst (frame title body err0 choices curs H W s) in
  In (insstr 0 l title titlecolor) calls
  /\ forall y x t a,
       In (insstr y x t a) calls ->
       (y = 0 /\ x = l /\ t = title) \/ (2 <= y /\ x = 4 + l).
Proof.
  cbv zeta. unfold frame.
  remember (lshift_of title body err0 choices W) as l eqn:El.
  pose proof (draw_body_rows l body 1) as RB.
  pose proof (draw_body_cols l body 1) as CB.
  pose proof (draw_body_snd l body 1) as [_ MB].
  destruct (draw_body l body 1) as [cbody linenum].
  cbn [fst snd] in RB, CB, MB.
  pose proof (draw_err_rows choices err0 H l (linenum + 1) (expire err0 s))
    as [ME RE].
  pose proof (draw_err_cols choices err0 H l (linenum + 1) (expire err0 s))
    as CE.
  destruct (draw_err err0 choices H l (linenum + 1) (expire err0 s))
    as [[cerr top1] s1]. cbn [fst snd] in ME, RE, CE.
  pose proof (draw_choices_cols H l (topline s1) (hpos s1) choices 0 top1)
    as CC.
  rewrite Z.add_0_l.
  assert (Hd : forall y x t a,
             In (insstr y x t a)
                ([erase; insstr 0 l title titlecolor]
                   ++ cbody ++ cerr
                   ++ draw_choices H l (topline s1) (hpos s1) 0 choices top1)
             -> (y = 0 /\ x = l /\ t = title) \/ (2 <= y /\ x = 4 + l)).
  { intros y x t a Hin.
    destruct Hin as [E|[E|Hin]];
      [discriminate | injection E as <- <- <- _; left; auto |].
    cbn [app] in Hin. apply in_app_or in Hin. destruct Hin as [Hin|Hin].
    { specialize (RB y x t a Hin). specialize (CB y x t a Hin).
      right; split; [lia | assumption]. }
    apply in_app_or in Hin. destruct Hin as [Hin|Hin].
    { specialize (RE y x t a Hin). specialize (CE y x t a Hin).
      right; split; [lia | assumption]. }
    destruct (CC y x t a Hin). right; split; [lia | assumption]. }
  destruct (draw_cursor choices curs W l top1 s1) as [cc|] eqn:Hcur;
    cbn [fst].
  - split; [apply in_or_app; left; right; left; reflexivity|].
    intros y x t a Hin. apply in_app_or in Hin.
    destruct Hin as [Hin|Hin]; [exact (Hd y x t a Hin)|].
    exfalso. apply in_app_or in Hin. destruct Hin as [Hin|[E|[]]];
      [|discriminate].
    unfold draw_cursor in Hcur.
    destruct (negb (curs =? 0));
      [|injection Hcur as <-; contradiction].
    destruct (Py.index choices (hpos s1)) as [choice|]; [|discriminate].
    remember (4 + l + Py.len choice) as col.
    destruct (col <? W); injection Hcur as <-.
    + destruct Hin as [E|[E|[]]]; discriminate.
    + contradiction.
  - split; [right; left; reflexivity | exact Hd].
Qed.
End MenuColumns.

(** X9.  [maxwidth] is an upper bound of the length of the title, of
    every body line, of every error line and of every choice; when it is
    below the window width the indent is half of the free columns, so
    that the margins left and right of a line of length [maxwidth] that
    starts at the indent differ by at most one column, and otherwise the
    indent is 0.  A frame writes the title on row 0 at the indent; every
    other line it writes is on a row from 2 on and starts 4 columns to
    the right of the indent. *)
Theorem centring :
  forall title body err0 choices curs H W s,
    let m := Menu.maxwidth title body err0 choices in
    let l := Menu.lshift_of title body err0 choices W in
    let calls := fst (Menu.frame title body err0 choices curs H W s) in
    Py.len title <= m
    /\ (forall section line,
          In section body -> In line section -> Py.len line <= m)
    /\ (forall e, err0 = Some (Menu.ErrStr e) -> Py.len e <= m)
    /\ (forall es e, err0 = Some (Menu.ErrList es) -> In e es ->
                     Py.len e <= m)
    /\ (forall c, In c choices -> Py.len c <= m)
    /\ (m < W -> 0 <= l /\ 0 <= (W - m - l) - l <= 1)
    /\ (W <= m -> l = 0)
    /\ In (insstr 0 l title Menu.titlecolor) calls
    /\ (forall y x t a,
          In (insstr y x t a) calls ->
          (y = 0 /\ x = l /\ t = title) \/ (2 <= y /\ x = 4 + l)).
Proof.
  intros title body err0 choices curs H W s. cbv zeta.
  destruct (frame_cols title body err0 choices curs H W s) as [F1 F2].
  cbv zeta in F1, F2.
  unfold Menu.lshift_of, Menu.maxwidth in *.
  set (m1 := fold_left (fun m section => Menu.maxlen section m) body
               (Py.len title)) in *.
  set (m2 := match err0 with
             | Some (Menu.ErrStr s) => Z.max (Py.len s) m1
             | Some (Menu.ErrList l) => Menu.maxlen l m1
             | None => m1
             end) in *.
  destruct (body_maxlen_bound body (Py.len title)) as [B1 B2].
  fold m1 in B1, B2.
  assert (E1 : m1 <= m2).
  { unfold m2. destruct err0 as [[e|es]|]; try lia.
    apply maxlen_bound. }
  destruct (maxlen_bound choices m2) as [C1 C2].
  split; [lia|].
  split; [intros section line Hs Hl; specialize (B2 section line Hs Hl);
          lia|].
  split; [intros e ->; unfold m2 in *; lia|].
  split; [intros es e -> Hin; unfold m2 in *;
          pose proof (proj2 (maxlen_bound es m1) e Hin); lia|].
  split; [exact C2|].
  split.
  { intros Hm. destruct (Z.ltb_spec (Menu.maxlen choices m2) W); [|lia].
    generalize (Z.div_mod (W - Menu.maxlen choices m2) 2)
               (Z.mod_pos_bound (W - Menu.maxlen choices m2) 2). lia. }
  split.
  { intros Hw. destruct (Z.ltb_spec (Menu.maxlen choices m2) W); [lia|].
    reflexivity. }
  split; [exact F1 | exact F2].
Qed.

Lemma centring_witness :
  0 <= Menu.lshift_of [] [] None Menu.ten_choices 80
  /\ 0 <= (80 - Menu.maxwidth [] [] None Menu.ten_choices
           - Menu.lshift_of [] [] None Menu.ten_choices 80)
          - Menu.lshift_of [] [] None Menu.ten_choices 80 <= 1.
Proof.
  pose proof (centring [] [] None Menu.ten_choices 0 5 80
                (Menu.mkstate None None 0 0))
    as (_ & _ & _ & _ & _ & K & _).
  exact (K ltac:(vm_compute; reflexivity)).
Defined.

(** ** Runs of the menu on a real window *)

(** C5, amended.  While no error message is shown, on a window at least 9
    columns wide, from a scroll state with [0 <= topLine <= selected]
    whose selection is on a visible row, [n] presses of Down followed by
    [n] presses of Up, with [n <= count-1-selected], return [selected] to
    its value and leave [topLine] at [min (max topLine (selected+n-V+1))
    selected], where [V] is the number of visible rows; that is the
    original [topLine] exactly when the Downs did not scroll the list or
    the selection started on the top visible row.  Every write and cursor
    move of the run is inside the window. *)
Theorem down_up_round_trip :
  forall title body err0 choices curs H W ec t h (n : nat),
    0 <= t <= h ->
    h + Z.of_nat n <= Py.len choices - 1 ->
    h - t < H - Menu.choices_top body ->
    9 <= W ->
    let V := H - Menu.choices_top body in
    let t' := Z.min (Z.max t (h + Z.of_nat n - V + 1)) h in
    let keys := repeat (Menu.mkinput H W KEY_DOWN) n
                  ++ repeat (Menu.mkinput H W KEY_UP) n in
    Menu.after title body err0 choices false curs keys
      (Menu.mkstate None ec t h)
    = Some (Menu.mkstate None ec t' h)
    /\ (t' = t <-> h + Z.of_nat n < t + V \/ h = t)
    /\ Screen.all_inside H W
         (fst (Menu.loop title body err0 choices false curs keys
                 (Menu.mkstate None ec t h))) = true.
Proof.
  intros title body err0 choices curs H W ec t h n Ht Hn Hv Hw. cbv zeta.
  split; [|split; [lia|]].
  - rewrite after_app, after_downs by lia.
    rewrite after_ups by lia.
    f_equal. f_equal; lia.
  - apply loop_inside; cbn [Menu.err Menu.topline Menu.hpos]; try lia.
    + apply Forall_forall. intros i Hi. apply in_app_or in Hi.
      destruct Hi as [Hi|Hi]; apply repeat_spec in Hi; subst i;
        split; reflexivity.
    + apply lshift_bounds. exact Hw.
    + reflexivity.
Qed.

Lemma down_up_round_trip_witness :
  Menu.after [] [] None Menu.ten_choices false 0
    (repeat (Menu.mkinput 5 80 KEY_DOWN) 6
       ++ repeat (Menu.mkinput 5 80 KEY_UP) 6)
    (Menu.mkstate None None 0 0)
  = Some (Menu.mkstate None None 0 0).
Proof.
  exact (proj1 (down_up_round_trip [] [] None Menu.ten_choices 0 5 80 None
                  0 0 6 ltac:(lia) ltac:(vm_compute; discriminate)
                  ltac:(vm_compute; reflexivity) ltac:(lia))).
Defined.






(** X27.  The split-pane renderer with the default gap on a window of at
    least 1 row: with no boundary shift every write is inside the window
    exactly when the window is at least 11 columns wide, and with a
    boundary shift every write is inside the window when it is at least 6
    columns wide. *)
Theorem split_pane_stays_inside_window :
  forall height width lhs lpos rhs rpos highlight paneshmt,
    1 <= height ->
    let calls := fst (SplitPane.drawsplitpane height width lhs lpos rhs rpos
                        highlight paneshmt 2) in
    (paneshmt = 0 ->
       (Screen.all_inside height width calls = true <-> 11 <= width))
    /\ (paneshmt <> 0 -> 6 <= width ->
          Screen.all_inside height width calls = true).
Proof.
  intros height width lhs lpos rhs rpos highlight paneshmt Hh. cbv zeta.
  split.
  - intros ->. split.
    + intros Hin. destruct (Z.lt_ge_cases width 11) as [Hlt|]; [|assumption].
      exfalso. revert Hin. unfold SplitPane.drawsplitpane, SplitPane.layout.
      cbn [Z.eqb negb fst snd]. rewrite !all_inside_app, !all_inside_cons.
      replace (Screen.inside height width
                 (insstr 0 (width - 11) (Py.of_string "right")
                    SplitPane.infocolor)) with false.
      * rewrite !andb_false_r. cbn [andb]. discriminate.
      * unfold Screen.inside.
        destruct (Z.leb_spec 0 (width - 11)); [lia|].
        rewrite !andb_false_r. reflexivity.
    + intros Hw. apply drawsplitpane_inside; [exact Hh | left; lia].
  - intros Hne Hw. apply drawsplitpane_inside; [exact Hh | right; left; lia].
Qed.

Lemma split_pane_stays_inside_window_witness :
  Screen.all_inside 24 80
    (fst (SplitPane.drawsplitpane 24 80 [Py.of_string "a"] (-1, 0)
            [Py.of_string "b"] (-1, 0) true 3 2)) = true.
Proof.
  exact (proj2 (split_pane_stays_inside_window 24 80 [Py.of_string "a"]
                  (-1, 0) [Py.of_string "b"] (-1, 0) true 3 ltac:(lia))
               ltac:(lia) ltac:(lia)).
Defined.


